(** * Sales dashboard: the data pipeline of [dashboard-demo.py]

    The script loads a table of sales rows, slices it by date range and
    store, and derives the tables behind the KPI cards and the charts.
    This development embeds that pipeline: the pandas operations the
    script calls become list functions, the script's top-level code an
    explicit function of the loaded table and of the sidebar inputs.

    Numbers: the [sales] column and everything computed from it are exact
    rationals ([Q]); the rounding of float64 is not part of the model.
    Dates: the [date] column holds calendar dates (timestamps at
    midnight), a record of year, month and day. *)

From Stdlib Require Import ZArith QArith Qabs Bool List String Ascii.
From Stdlib Require Import Lia Permutation Sorted.
Import ListNotations.

Local Open Scope string_scope.
Local Open Scope list_scope.
Local Open Scope Z_scope.

(* ================================================================== *)
(** ** Calendar dates and the fields derived from them *)

Module Calendar.

Record Date : Type := mkDate { year : Z; month : Z; day : Z }.

(** Timestamps compare chronologically: year, then month, then day. *)
Definition compare (a b : Date) : comparison :=
  match year a ?= year b with
  | Eq => match month a ?= month b with
          | Eq => day a ?= day b
          | c => c
          end
  | c => c
  end.

Definition leb (a b : Date) : bool :=
  match compare a b with Gt => false | _ => true end.

Definition le (a b : Date) : Prop := compare a b <> Gt.

(** [Series.between(left, right)], inclusive on both sides. *)
Definition between (left right d : Date) : bool := leb left d && leb d right.

(** Proleptic Gregorian ordinal, as [datetime.date.toordinal]. *)
Definition is_leap (y : Z) : bool :=
  (y mod 4 =? 0) && (negb (y mod 100 =? 0) || (y mod 400 =? 0)).

Definition days_before_year (y : Z) : Z :=
  let p := y - 1 in p * 365 + p / 4 - p / 100 + p / 400.

Definition days_before_month (y m : Z) : Z :=
  nth (Z.to_nat m) [0; 0; 31; 59; 90; 120; 151; 181; 212; 243; 273; 304; 334] 0
  + (if (2 <? m) && is_leap y then 1 else 0).

Definition toordinal (d : Date) : Z :=
  days_before_year (year d) + days_before_month (year d) (month d) + day d.

(** 0 is Monday, 6 is Sunday. *)
Definition weekday (d : Date) : Z := (toordinal d + 6) mod 7.

(** [dt.day_name()] *)
Definition day_name (d : Date) : string :=
  nth (Z.to_nat (weekday d))
      ["Monday"; "Tuesday"; "Wednesday"; "Thursday"; "Friday"; "Saturday"; "Sunday"]
      EmptyString.

(** The abbreviated month name of [strftime('%b')]. *)
Definition month_abbr (m : Z) : string :=
  nth (Z.to_nat (m - 1))
      ["Jan"; "Feb"; "Mar"; "Apr"; "May"; "Jun";
       "Jul"; "Aug"; "Sep"; "Oct"; "Nov"; "Dec"]
      EmptyString.

(** Decimal digits, zero padded to a fixed width. *)
Definition digit (n : Z) : ascii := ascii_of_N (48 + Z.to_N n).

Fixpoint pad (width : nat) (n : Z) : string :=
  match width with
  | O => EmptyString
  | S w => (pad w (n / 10) ++ String (digit (n mod 10)) EmptyString)%string
  end.

(** [dt.to_period('M').astype(str)]: the label YYYY-MM. *)
Definition period_label (y m : Z) : string :=
  (pad 4 y ++ "-" ++ pad 2 m)%string.

(** [dt.strftime('%d/%m/%Y')] *)
Definition strftime_dmy (d : Date) : string :=
  (pad 2 (day d) ++ "/" ++ pad 2 (month d) ++ "/" ++ pad 4 (year d))%string.

(** The years a pandas timestamp can hold, and a month of the calendar. *)
Definition valid (d : Date) : Prop :=
  1677 <= year d <= 2262 /\ 1 <= month d <= 12 /\ 1 <= day d <= 31.

End Calendar.

(* ================================================================== *)
(** ** Rows and data frames *)

(** One row of the sheet: the columns [date], [store] and [sales]. *)
Record Row : Type := mkRow { date : Calendar.Date; store : string; sales : Q }.

Definition DataFrame : Type := list Row.

(** The columns [load_data_from_gsheets] adds, each a function of [date]. *)
Definition year (r : Row) : Z := Calendar.year (date r).
Definition month_num (r : Row) : Z := Calendar.month (date r).
Definition day_of_week (r : Row) : string := Calendar.day_name (date r).
Definition month_name (r : Row) : string := Calendar.month_abbr (month_num r).
Definition month_year (r : Row) : string :=
  Calendar.period_label (year r) (month_num r).

(** [df.empty] *)
Definition empty {A : Type} (df : list A) : bool :=
  match df with [] => true | _ => false end.

(** [Series.isin(values)] *)
Definition isin (values : list string) (s : string) : bool :=
  existsb (String.eqb s) values.

(** The Filter Layer: the date mask of lines 172-174, then the store mask
    of line 199. *)
Definition filter_dates (df : DataFrame) (start_date end_date : Calendar.Date) : DataFrame :=
  filter (fun r => Calendar.between start_date end_date (date r)) df.

Definition filter_stores (df : DataFrame) (selected_stores : list string) : DataFrame :=
  filter (fun r => isin selected_stores (store r)) df.

Definition filter_layer (df : DataFrame) (start_date end_date : Calendar.Date)
           (selected_stores : list string) : DataFrame :=
  filter_stores (filter_dates df start_date end_date) selected_stores.

(* ================================================================== *)
(** ** The pandas operations the script uses *)

Section Ordering.
Context {K : Type} (cmp : K -> K -> comparison).

Definition key_eqb (a b : K) : bool :=
  match cmp a b with Eq => true | _ => false end.

(** Group keys come out sorted and without repetition
    ([groupby(..., sort=True)], the default). *)
Fixpoint insert_key (k : K) (l : list K) : list K :=
  match l with
  | [] => [k]
  | h :: t =>
      match cmp k h with
      | Lt => k :: l
      | Eq => l
      | Gt => h :: insert_key k t
      end
  end.

Definition sorted_keys (l : list K) : list K := fold_right insert_key [] l.

(** [sort_values(by=...)]: rows ordered by a key column; rows with equal
    keys keep the order they had. *)
Fixpoint insert_by {A : Type} (key : A -> K) (x : A) (l : list A) : list A :=
  match l with
  | [] => [x]
  | h :: t =>
      match cmp (key x) (key h) with
      | Gt => h :: insert_by key x t
      | _ => x :: l
      end
  end.

Definition sort_values {A : Type} (key : A -> K) (l : list A) : list A :=
  fold_right (insert_by key) [] l.

(** Position of a label in an index. *)
Fixpoint lookup {V : Type} (k : K) (l : list (K * V)) : option V :=
  match l with
  | [] => None
  | (k', v) :: t => if key_eqb k k' then Some v else lookup k t
  end.
End Ordering.

(** [ascending=False] *)
Definition descending {K : Type} (cmp : K -> K -> comparison) : K -> K -> comparison :=
  fun a b => cmp b a.

(** Keys made of two columns compare column by column. *)
Definition pair_compare {A B : Type} (ca : A -> A -> comparison)
           (cb : B -> B -> comparison) (x y : A * B) : comparison :=
  match ca (fst x) (fst y) with
  | Eq => cb (snd x) (snd y)
  | c => c
  end.

(** [df.groupby(key)['sales'].agg(f)]: one entry per key present in the
    frame, holding [f] of the sales of the rows under that key. *)
Definition group {K : Type} (cmp : K -> K -> comparison) (key : Row -> K)
           (k : K) (df : DataFrame) : DataFrame :=
  filter (fun r => key_eqb cmp (key r) k) df.

Definition groupby_agg {K V : Type} (cmp : K -> K -> comparison) (key : Row -> K)
           (agg : list Q -> V) (df : DataFrame) : list (K * V) :=
  map (fun k => (k, agg (map sales (group cmp key k df))))
      (sorted_keys cmp (map key df)).

(** Aggregations. A float that is not a number (the mean or median of
    nothing, an empty cell) is [None]. *)
Definition Qsum (l : list Q) : Q := fold_right Qplus 0%Q l.

Definition mean (l : list Q) : option Q :=
  match l with
  | [] => None
  | _ => Some (Qsum l / inject_Z (Z.of_nat (List.length l)))%Q
  end.

Definition median (l : list Q) : option Q :=
  match l with
  | [] => None
  | _ =>
      let s := sort_values Qcompare (fun q => q) l in
      let n := List.length s in
      let h := Nat.div n 2 in
      if Nat.even n
      then Some ((nth (Nat.pred h) s 0%Q + nth h s 0%Q) / 2)%Q
      else Some (nth h s 0%Q)
  end.

Definition Qltb (a b : Q) : bool := negb (Qle_bool b a).

(* ================================================================== *)
(** ** Chart builders *)

(** A table with a row index, column labels and one cell per pair. *)
Record PivotTable : Type :=
  mkPivot { index : list string; columns : list string;
            cells : list (list (option Q)) }.

Definition cell_or_nan {K : Type} (cmp : K -> K -> comparison) (k : K)
           (l : list (K * option Q)) : option Q :=
  match lookup cmp k l with
  | Some v => v
  | None => None
  end.

(** [df.pivot_table(values='sales', index='store', columns='day_of_week',
    aggfunc='mean')]: the mean per (store, day) present in the frame, laid
    out with the stores as rows and the days found as columns. *)
Definition store_day (r : Row) : string * string := (store r, day_of_week r).

Definition pivot_table (df : DataFrame) : PivotTable :=
  let cmp2 := pair_compare String.compare String.compare in
  let grouped := groupby_agg cmp2 store_day mean df in
  let idx := sorted_keys String.compare (map (fun e => fst (fst e)) grouped) in
  let cols := sorted_keys String.compare (map (fun e => snd (fst e)) grouped) in
  mkPivot idx cols
          (map (fun i => map (fun c => cell_or_nan cmp2 (i, c) grouped) cols) idx).

(** [.reindex(columns=labels)]: the columns become [labels], in that
    order; a label the table does not have gives empty cells. *)
Definition reindex_columns (labels : list string) (t : PivotTable) : PivotTable :=
  mkPivot (index t) labels
          (map (fun row =>
                  map (fun c => cell_or_nan String.compare c (combine (columns t) row))
                      labels)
               (cells t)).

Definition ordered_days : list string :=
  ["Monday"; "Tuesday"; "Wednesday"; "Thursday"; "Friday"; "Saturday"; "Sunday"].

Definition heatmap_data (df : DataFrame) : PivotTable :=
  reindex_columns ordered_days (pivot_table df).

Record HeatmapFigure : Type :=
  mkHeatmap { hm_z : PivotTable; hm_x : list string; hm_y : list string;
              hm_title : string }.

(** What a builder hands back: its return value and the notes it put on
    the page with [st.info]. *)
Definition Built (A : Type) : Type := (option A * list string)%type.

Definition create_heatmap (df : DataFrame) (title : string) : Built HeatmapFigure :=
  if empty df
  then (None, [("No data available to generate heatmap: " ++ title)%string])
  else
    let data := heatmap_data df in
    (Some (mkHeatmap data ordered_days (index data) title), []).

(** The rows of a day on which the store sold something. *)
Definition df_operating_days (df : DataFrame) : DataFrame :=
  filter (fun r => Qltb 0 (sales r)) df.

(** [groupby('store')['sales'].agg(['mean', 'median']).reset_index()] *)
Definition stats (df : DataFrame) : list (string * (option Q * option Q)) :=
  groupby_agg String.compare store (fun l => (mean l, median l))
              (df_operating_days df).

Record StatsRow : Type :=
  mkStatsRow { st_store : string; st_metric : string; st_value : option Q }.

(** [melt]: all the means, then all the medians. *)
Definition melt (t : list (string * (option Q * option Q))) : list StatsRow :=
  map (fun e => mkStatsRow (fst e) "mean" (fst (snd e))) t
  ++ map (fun e => mkStatsRow (fst e) "median" (snd (snd e))) t.

Record BarFigure : Type := mkBar { bar_data : list StatsRow; bar_title : string }.

Definition create_stats_barchart (df : DataFrame) (title : string) : Built BarFigure :=
  if empty df
  then (None, [("No data available to generate stats chart: " ++ title)%string])
  else (Some (mkBar (melt (stats df)) title), []).

(* ================================================================== *)
(** ** KPIs *)

(** The value of a variation: a number, not a number, or plus infinity. *)
Inductive float : Type :=
| Num (q : Q)
| NaN
| PosInf.

(** [((v1 - v2) / v2) * 100 if v2 > 0 else float('inf')] on values that
    are numbers or not-a-number: a comparison with not-a-number is false,
    arithmetic on it gives it back. *)
Definition pct_var (v1 v2 : option Q) : float :=
  match v2 with
  | Some b =>
      if Qltb 0 b
      then match v1 with
           | Some a => Num ((a - b) / b * 100)%Q
           | None => NaN
           end
      else PosInf
  | None => PosInf
  end.

Definition delta (value1 value2 : Q) : float := pct_var (Some value1) (Some value2).

Definition total_sales (df : DataFrame) : Q := Qsum (map sales df).

(** [df.groupby('date')['sales'].sum().mean()] *)
Definition avg_daily_sales (df : DataFrame) : option Q :=
  mean (map snd (groupby_agg Calendar.compare date Qsum df)).

(* ================================================================== *)
(** ** Display formatting *)

(** The nearest integer to a non-negative rational, ties to even. *)
Definition round_half_even (q : Q) : Z :=
  let n := Qnum q in
  let d := Z.pos (Qden q) in
  let fl := n / d in
  match (2 * (n mod d)) ?= d with
  | Lt => fl
  | Gt => fl + 1
  | Eq => if Z.even fl then fl else fl + 1
  end.

Fixpoint digits (fuel : nat) (n : Z) : string :=
  match fuel with
  | O => EmptyString
  | S f =>
      if n <? 10 then String (Calendar.digit n) EmptyString
      else (digits f (n / 10) ++ String (Calendar.digit (n mod 10)) EmptyString)%string
  end.

Fixpoint thousands (fuel : nat) (n : Z) : string :=
  match fuel with
  | O => EmptyString
  | S f =>
      if n <? 1000 then digits 3 n
      else (thousands f (n / 1000) ++ "," ++ Calendar.pad 3 (n mod 1000))%string
  end.

(** [f"${x:,.0f}"] *)
Definition format_sales (x : Q) : string :=
  let m := round_half_even (Qabs x) in
  ("$" ++ (if Qltb x 0 then "-" else "")
       ++ thousands (S (Z.to_nat (Z.log2 m))) m)%string.

(* ================================================================== *)
(** ** The script *)

(** What the sidebar returns in one run. *)
Record Sidebar : Type :=
  mkSidebar { compare_mode : bool;
              start_date_1 : Calendar.Date; end_date_1 : Calendar.Date;
              start_date_2 : Calendar.Date; end_date_2 : Calendar.Date;
              selected_stores : list string }.

Definition df_period_1 (df_original : DataFrame) (sb : Sidebar) : DataFrame :=
  filter_stores (filter_dates df_original (start_date_1 sb) (end_date_1 sb))
                (selected_stores sb).

Definition df_period_2 (df_original : DataFrame) (sb : Sidebar) : DataFrame :=
  let d2 :=
    if compare_mode sb
    then filter_dates df_original (start_date_2 sb) (end_date_2 sb)
    else [] in
  if negb (empty d2) then filter_stores d2 (selected_stores sb) else d2.

(** [compare_mode and not df_period_2.empty] *)
Definition comparing (sb : Sidebar) (d2 : DataFrame) : bool :=
  compare_mode sb && negb (empty d2).

Inductive Kpis : Type :=
| KpiComparison (total_sales_1 : Q) (avg_daily_sales_1 : option Q)
                (total_sales_2 : Q) (avg_daily_sales_2 : option Q)
                (sales_var avg_sales_var : float)
| KpiMain (total_sales_1 : Q) (avg_daily_sales_1 : option Q).

Definition kpis (sb : Sidebar) (d1 d2 : DataFrame) : Kpis :=
  let total_sales_1 := total_sales d1 in
  let avg_daily_sales_1 := avg_daily_sales d1 in
  if comparing sb d2 then
    let total_sales_2 := total_sales d2 in
    let avg_daily_sales_2 := avg_daily_sales d2 in
    KpiComparison total_sales_1 avg_daily_sales_1 total_sales_2 avg_daily_sales_2
                  (pct_var (Some total_sales_1) (Some total_sales_2))
                  (pct_var avg_daily_sales_1 avg_daily_sales_2)
  else KpiMain total_sales_1 avg_daily_sales_1.

(** Monthly trend. *)
Record TrendRow : Type :=
  mkTrend { t_month_num : Z; t_month_name : string; t_sales : Q; t_period : string }.

Definition month_key (r : Row) : Z * string := (month_num r, month_name r).

Definition monthly_sales (df : DataFrame) (period : string) : list TrendRow :=
  map (fun e => mkTrend (fst (fst e)) (snd (fst e)) (snd e) period)
      (groupby_agg (pair_compare Z.compare String.compare) month_key Qsum df).

Definition plot_df_comparison (d1 d2 : DataFrame) : list TrendRow :=
  sort_values Z.compare t_month_num
              (monthly_sales d1 "Main" ++ monthly_sales d2 "Comparison").

Definition plot_df_evolution (d1 : DataFrame) : list (string * Q) :=
  groupby_agg String.compare month_year Qsum d1.

Inductive Trend : Type :=
| MonthlyComparison (plot_df : list TrendRow)
| MonthlyEvolution (plot_df : list (string * Q)).

Definition plot_df (sb : Sidebar) (d1 d2 : DataFrame) : Trend :=
  if comparing sb d2
  then MonthlyComparison (plot_df_comparison d1 d2)
  else MonthlyEvolution (plot_df_evolution d1).

(** Composition by store. *)
Definition store_sales (d1 : DataFrame) : list (string * Q) :=
  groupby_agg String.compare store Qsum d1.

(** The two charts of the second tab, one per period shown. *)
Definition heatmaps (sb : Sidebar) (d1 d2 : DataFrame) : list (Built HeatmapFigure) :=
  if comparing sb d2
  then [create_heatmap d1 "Main Period"; create_heatmap d2 "Comparison Period"]
  else [create_heatmap d1 "Performance in Selected Period"].

Definition stats_charts (sb : Sidebar) (d1 d2 : DataFrame) : list (Built BarFigure) :=
  if comparing sb d2
  then [create_stats_barchart d1 "Main Period";
        create_stats_barchart d2 "Comparison Period"]
  else [create_stats_barchart d1 "Performance in Selected Period"].

(** Data explorer: four columns, sales and date turned into text, then
    [sort_values(by="date", ascending=False)] on the result. *)
Record DisplayRow : Type :=
  mkDisplay { d_date : string; d_store : string; d_sales : string;
              d_day_of_week : string }.

Definition display_row (r : Row) : DisplayRow :=
  mkDisplay (Calendar.strftime_dmy (date r)) (store r) (format_sales (sales r))
            (day_of_week r).

Definition df_display (d1 : DataFrame) : list DisplayRow :=
  sort_values (descending String.compare) d_date (map display_row d1).

Record View : Type :=
  mkView { v_kpis : Kpis; v_trend : Trend; v_store_sales : list (string * Q);
           v_heatmaps : list (Built HeatmapFigure);
           v_stats : list (Built BarFigure);
           v_explorer : list DisplayRow }.

Inductive Outcome : Type :=
| Stopped (warning : string)
| Rendered (v : View).

(** One run of the script on a loaded table. *)
Definition dashboard (df_original : DataFrame) (sb : Sidebar) : Outcome :=
  let d1 := df_period_1 df_original sb in
  let d2 := df_period_2 df_original sb in
  if empty d1
  then Stopped "No data available for the selected filters in the main period."
  else Rendered (mkView (kpis sb d1 d2) (plot_df sb d1 d2) (store_sales d1)
                        (heatmaps sb d1 d2) (stats_charts sb d1 d2)
                        (df_display d1)).

(** What a point of the monthly comparison says besides its amount. *)
Definition trend_label (t : TrendRow) : Z * string * string :=
  (t_month_num t, t_month_name t, t_period t).

(** Year and month of a row, as numbers. *)
Definition year_month (r : Row) : Z * Z := (year r, month_num r).



(* ================================================================== *)
(** ** The specification's reading of the typical-performance aggregator *)

(** In the specification's words: drop the rows whose sales are 0, then
    take mean and median of sales by store. *)
Definition stats_excluding_zero_sales (df : DataFrame)
  : list (string * (option Q * option Q)) :=
  groupby_agg String.compare store (fun l => (mean l, median l))
              (filter (fun r => negb (Qeq_bool (sales r) 0)) df).

(* ================================================================== *)
(** ** Sidebar defaults *)

(** [calendar.monthrange(year, month)[1]] *)
Definition days_in_month (y m : Z) : Z :=
  if m =? 2 then (if Calendar.is_leap y then 29 else 28)
  else if (m =? 4) || (m =? 6) || (m =? 9) || (m =? 11) then 30
  else 31.

(** [d - pd.DateOffset(years=.., months=..)] with fewer than twelve months:
    the year and the month move back, one carry between them, and the day
    is cut to the length of the month reached. *)
Definition minus_date_offset (years months : Z) (d : Calendar.Date) : Calendar.Date :=
  let y := Calendar.year d - years in
  let m := Calendar.month d - months in
  let y' := if 12 <? m then y + 1 else if m <? 1 then y - 1 else y in
  let m' := if 12 <? m then m - 12 else if m <? 1 then m + 12 else m in
  Calendar.mkDate y' m' (Z.min (days_in_month y' m') (Calendar.day d)).

Definition date_ltb (a b : Calendar.Date) : bool :=
  match Calendar.compare a b with Lt => true | _ => false end.

(** [df_original['date'].min()] and [.max()]; nothing on an empty table. *)
Definition date_min (a b : Calendar.Date) : Calendar.Date :=
  if Calendar.leb a b then a else b.

Definition date_max (a b : Calendar.Date) : Calendar.Date :=
  if Calendar.leb a b then b else a.

Definition min_date (df_original : DataFrame) : option Calendar.Date :=
  match df_original with
  | [] => None
  | r :: t => Some (fold_left (fun acc r' => date_min acc (date r')) t (date r))
  end.

Definition max_date (df_original : DataFrame) : option Calendar.Date :=
  match df_original with
  | [] => None
  | r :: t => Some (fold_left (fun acc r' => date_max acc (date r')) t (date r))
  end.

(** Lines 158-162: six months before the last date, but not before the
    first. *)
Definition start_value (min_d max_d : Calendar.Date) : Calendar.Date :=
  let default_start_date := minus_date_offset 0 6 max_d in
  if date_ltb default_start_date min_d then min_d else default_start_date.

(** Lines 179-180. *)
Definition default_start_2 (start_1 : Calendar.Date) : Calendar.Date :=
  minus_date_offset 1 0 start_1.

Definition default_end_2 (end_1 : Calendar.Date) : Calendar.Date :=
  minus_date_offset 1 0 end_1.

(** [sorted(df_original['store'].unique())] *)
Definition all_stores (df_original : DataFrame) : list string :=
  sorted_keys String.compare (map store df_original).

(** The sidebar as it stands when nothing has been touched: compare mode
    off, the default main range, every store selected. *)
Definition default_sidebar (df_original : DataFrame) : option Sidebar :=
  match min_date df_original, max_date df_original with
  | Some min_d, Some max_d =>
      let s1 := start_value min_d max_d in
      Some (mkSidebar false s1 max_d (default_start_2 s1) (default_end_2 max_d)
                      (all_stores df_original))
  | _, _ => None
  end.

(* ================================================================== *)
(** ** KPI cards *)

(** [v >= 0] on a variation: true at plus infinity, false at not-a-number. *)
Definition float_ge0 (v : float) : bool :=
  match v with
  | Num q => Qle_bool 0 q
  | NaN => false
  | PosInf => true
  end.

(** [delta_color = "green" if sales_var >= 0 else "red"]; the arrow of the
    card follows the same test. *)
Definition delta_color (v : float) : string :=
  if float_ge0 v then "green" else "red".

(** The variations a run shows on its cards, if it shows any. *)
Definition sales_var_of (k : Kpis) : option float :=
  match k with
  | KpiComparison _ _ _ _ v _ => Some v
  | KpiMain _ _ => None
  end.

(** Day, month and year of a row, in the order the explorer's date text
    puts them. *)
Definition day_month_year (r : Row) : Z * (Z * Z) :=
  (Calendar.day (date r), (month_num r, year r)).

(* ================================================================== *)
(** ** Orders on keys *)

(** What the pipeline relies on in a key comparison: it decides equality
    and its [Lt] is a strict order. *)
Record CmpOrder {K : Type} (cmp : K -> K -> comparison) : Prop :=
  mkCmpOrder {
      cmp_eq : forall a b, cmp a b = Eq -> a = b;
      cmp_refl : forall a, cmp a a = Eq;
      cmp_antisym : forall a b, cmp b a = CompOpp (cmp a b);
      cmp_trans : forall a b c, cmp a b = Lt -> cmp b c = Lt -> cmp a c = Lt }.

Definition klt {K : Type} (cmp : K -> K -> comparison) (a b : K) : Prop :=
  cmp a b = Lt.

Definition kle {K : Type} (cmp : K -> K -> comparison) (a b : K) : Prop :=
  cmp a b <> Gt.

(* ================================================================== *)
(** * Properties *)

(** ** Comparisons used by the script *)

Lemma Z_compare_order : CmpOrder Z.compare.
Proof.
  constructor.
  - intros a b H. now apply Z.compare_eq_iff.
  - intros a. apply Z.compare_refl.
  - intros a b. apply Z.compare_antisym.
  - intros a b c H1 H2. rewrite Z.compare_lt_iff in *. lia.
Qed.

Lemma ascii_compare_refl (a : ascii) : Ascii.compare a a = Eq.
Proof. unfold Ascii.compare. apply N.compare_refl. Qed.

Lemma ascii_compare_trans (a b c : ascii) :
  Ascii.compare a b = Lt -> Ascii.compare b c = Lt -> Ascii.compare a c = Lt.
Proof.
  unfold Ascii.compare. rewrite !N.compare_lt_iff. intros; etransitivity; eauto.
Qed.

Lemma string_compare_refl (s : string) : String.compare s s = Eq.
Proof.
  induction s as [|c s IH]; simpl; [reflexivity|].
  now rewrite ascii_compare_refl.
Qed.

Lemma string_compare_trans (s1 s2 s3 : string) :
  String.compare s1 s2 = Lt -> String.compare s2 s3 = Lt -> String.compare s1 s3 = Lt.
Proof.
  revert s2 s3.
  induction s1 as [|a s1 IH]; intros [|b s2] [|c s3]; simpl; try congruence.
  destruct (Ascii.compare a b) eqn:Hab; try discriminate;
    destruct (Ascii.compare b c) eqn:Hbc; try discriminate; intros H1 H2.
  - apply Ascii.compare_eq_iff in Hab, Hbc. subst.
    rewrite ascii_compare_refl. eauto.
  - apply Ascii.compare_eq_iff in Hab. subst. now rewrite Hbc.
  - apply Ascii.compare_eq_iff in Hbc. subst. now rewrite Hab.
  - now rewrite (ascii_compare_trans _ _ _ Hab Hbc).
Qed.

Lemma string_compare_order : CmpOrder String.compare.
Proof.
  constructor.
  - apply String.compare_eq_iff.
  - apply string_compare_refl.
  - intros a b. apply String.compare_antisym.
  - apply string_compare_trans.
Qed.

Lemma pair_compare_order {A B : Type} (ca : A -> A -> comparison)
      (cb : B -> B -> comparison) :
  CmpOrder ca -> CmpOrder cb -> CmpOrder (pair_compare ca cb).
Proof.
  intros Ha Hb. constructor.
  - intros [a1 b1] [a2 b2]. unfold pair_compare; simpl.
    destruct (ca a1 a2) eqn:E; try discriminate.
    intros H. apply (cmp_eq _ Ha) in E. apply (cmp_eq _ Hb) in H. congruence.
  - intros [a b]. unfold pair_compare; simpl.
    now rewrite (cmp_refl _ Ha), (cmp_refl _ Hb).
  - intros [a1 b1] [a2 b2]. unfold pair_compare; simpl.
    rewrite (cmp_antisym _ Ha a1 a2), (cmp_antisym _ Hb b1 b2).
    now destruct (ca a1 a2).
  - intros [a1 b1] [a2 b2] [a3 b3]. unfold pair_compare; simpl.
    destruct (ca a1 a2) eqn:E12; try discriminate;
      destruct (ca a2 a3) eqn:E23; try discriminate; intros H1 H2.
    + apply (cmp_eq _ Ha) in E12, E23. subst.
      rewrite (cmp_refl _ Ha). eapply (cmp_trans _ Hb); eauto.
    + apply (cmp_eq _ Ha) in E12. subst. now rewrite E23.
    + apply (cmp_eq _ Ha) in E23. subst. now rewrite E12.
    + now rewrite (cmp_trans _ Ha _ _ _ E12 E23).
Qed.



Lemma descending_order {K : Type} (cmp : K -> K -> comparison) :
  CmpOrder cmp -> CmpOrder (descending cmp).
Proof.
  intros H. unfold descending. constructor.
  - intros a b E. symmetry. now apply (cmp_eq _ H).
  - intros a. apply (cmp_refl _ H).
  - intros a b. apply (cmp_antisym _ H).
  - intros a b c H1 H2. eapply (cmp_trans _ H); eauto.
Qed.

(** ** Sorted keys *)

Section KeyFacts.
Context {K : Type} (cmp : K -> K -> comparison) (ord : CmpOrder cmp).

Lemma key_eqb_true (a b : K) : key_eqb cmp a b = true <-> a = b.
Proof.
  unfold key_eqb. split.
  - destruct (cmp a b) eqn:E; try discriminate. intros _. now apply (cmp_eq _ ord).
  - intros ->. now rewrite (cmp_refl _ ord).
Qed.

Lemma key_eqb_refl (a : K) : key_eqb cmp a a = true.
Proof. now apply key_eqb_true. Qed.

Lemma key_eqb_false (a b : K) : key_eqb cmp a b = false <-> a <> b.
Proof.
  rewrite <- key_eqb_true. destruct (key_eqb cmp a b); split; congruence.
Qed.

Lemma cmp_gt_lt (a b : K) : cmp a b = Gt -> cmp b a = Lt.
Proof. intros H. now rewrite (cmp_antisym _ ord a b), H. Qed.

Lemma klt_irrefl (a : K) : ~ klt cmp a a.
Proof. unfold klt. rewrite (cmp_refl _ ord). discriminate. Qed.

Lemma kle_trans (a b c : K) : kle cmp a b -> kle cmp b c -> kle cmp a c.
Proof.
  unfold kle. intros H1 H2 H3. apply cmp_gt_lt in H3.
  destruct (cmp a b) eqn:Eab; [| |congruence].
  - apply (cmp_eq _ ord) in Eab. subst. apply H2.
    now rewrite (cmp_antisym _ ord c b), H3.
  - pose proof (cmp_trans _ ord _ _ _ H3 Eab) as Hcb.
    apply H2. now rewrite (cmp_antisym _ ord c b), Hcb.
Qed.

Lemma insert_key_In (k x : K) (l : list K) :
  In x (insert_key cmp k l) <-> x = k \/ In x l.
Proof.
  induction l as [|h t IH]; simpl.
  - intuition.
  - destruct (cmp k h) eqn:E; simpl.
    + apply (cmp_eq _ ord) in E. subst. intuition.
    + intuition.
    + rewrite IH. intuition.
Qed.

Lemma sorted_keys_In (x : K) (l : list K) :
  In x (sorted_keys cmp l) <-> In x l.
Proof.
  induction l as [|h t IH]; simpl; [reflexivity|].
  rewrite insert_key_In, IH. intuition.
Qed.

Lemma insert_key_sorted (k : K) (l : list K) :
  StronglySorted (klt cmp) l -> StronglySorted (klt cmp) (insert_key cmp k l).
Proof.
  induction 1 as [|h t Hs IH Hh]; simpl.
  - repeat constructor.
  - destruct (cmp k h) eqn:E.
    + now constructor.
    + constructor; [now constructor|].
      constructor; [exact E|].
      eapply Forall_impl; [|exact Hh]. intros y Hy.
      unfold klt in *. eapply (cmp_trans _ ord); eauto.
    + constructor; [exact IH|].
      apply Forall_forall. intros y Hy. apply insert_key_In in Hy.
      destruct Hy as [->|Hy].
      * now apply cmp_gt_lt.
      * rewrite Forall_forall in Hh. now apply Hh.
Qed.

Lemma sorted_keys_sorted (l : list K) : StronglySorted (klt cmp) (sorted_keys cmp l).
Proof.
  induction l as [|h t IH]; simpl; [constructor|]. now apply insert_key_sorted.
Qed.

Lemma sorted_NoDup (l : list K) : StronglySorted (klt cmp) l -> NoDup l.
Proof.
  induction 1 as [|h t Hs IH Hh]; constructor; [|exact IH].
  intros Hin. rewrite Forall_forall in Hh. exact (klt_irrefl h (Hh h Hin)).
Qed.

Lemma sorted_keys_NoDup (l : list K) : NoDup (sorted_keys cmp l).
Proof. apply sorted_NoDup, sorted_keys_sorted. Qed.

(** A strictly sorted list is determined by its elements. *)
Lemma sorted_unique (l1 l2 : list K) :
  StronglySorted (klt cmp) l1 -> StronglySorted (klt cmp) l2 ->
  (forall x, In x l1 <-> In x l2) -> l1 = l2.
Proof.
  intros H1. revert l2.
  induction H1 as [|a t1 Hs1 IH Ha]; intros l2 H2 Hin.
  - destruct l2 as [|b t2]; [reflexivity|].
    exfalso. apply (proj2 (Hin b)). now left.
  - destruct H2 as [|b t2 Hs2 Hb].
    + exfalso. apply (proj1 (Hin a)). now left.
    + rewrite Forall_forall in Ha, Hb.
      assert (a = b) as ->.
      { destruct (proj1 (Hin a) (or_introl eq_refl)) as [E|I1]; [now symmetry|].
        destruct (proj2 (Hin b) (or_introl eq_refl)) as [E|I2]; [exact E|].
        exfalso. apply (klt_irrefl a). unfold klt in *.
        eapply (cmp_trans _ ord); [apply Ha, I2 | apply Hb, I1]. }
      f_equal. apply IH; [exact Hs2|].
      intros x. split; intros Hx.
      * destruct (proj1 (Hin x) (or_intror Hx)) as [E|I]; [|exact I].
        subst. exfalso. exact (klt_irrefl _ (Ha _ Hx)).
      * destruct (proj2 (Hin x) (or_intror Hx)) as [E|I]; [|exact I].
        subst. exfalso. exact (klt_irrefl _ (Hb _ Hx)).
Qed.

(** The keys of a grouping do not depend on the order of the rows. *)
Lemma sorted_keys_same_elements (l1 l2 : list K) :
  (forall x, In x l1 <-> In x l2) -> sorted_keys cmp l1 = sorted_keys cmp l2.
Proof.
  intros H. apply sorted_unique; try apply sorted_keys_sorted.
  intros x. now rewrite !sorted_keys_In.
Qed.

Lemma sorted_keys_fixpoint (l : list K) :
  StronglySorted (klt cmp) l -> sorted_keys cmp l = l.
Proof.
  intros H. apply sorted_unique; [apply sorted_keys_sorted | exact H |].
  intros x. apply sorted_keys_In.
Qed.

Lemma lookup_tabulate {V : Type} (f : K -> V) (k : K) (keys : list K) :
  lookup cmp k (map (fun x => (x, f x)) keys) =
  if existsb (key_eqb cmp k) keys then Some (f k) else None.
Proof.
  induction keys as [|h t IH]; simpl; [reflexivity|].
  destruct (key_eqb cmp k h) eqn:E; simpl; [|exact IH].
  apply key_eqb_true in E. now subst.
Qed.

Lemma existsb_key_In (k : K) (keys : list K) :
  existsb (key_eqb cmp k) keys = true <-> In k keys.
Proof.
  rewrite existsb_exists. split.
  - intros [x [Hx E]]. apply key_eqb_true in E. now subst.
  - intros H. exists k. split; [exact H | apply key_eqb_refl].
Qed.

(** [sort_values] *)
Lemma insert_by_perm {A : Type} (key : A -> K) (x : A) (l : list A) :
  Permutation (insert_by cmp key x l) (x :: l).
Proof.
  induction l as [|h t IH]; simpl; [reflexivity|].
  destruct (cmp (key x) (key h)); try reflexivity.
  rewrite IH. apply perm_swap.
Qed.

Lemma sort_values_perm {A : Type} (key : A -> K) (l : list A) :
  Permutation (sort_values cmp key l) l.
Proof.
  induction l as [|h t IH]; simpl; [reflexivity|].
  unfold sort_values in IH. rewrite insert_by_perm. now constructor.
Qed.

Lemma insert_by_sorted {A : Type} (key : A -> K) (x : A) (l : list A) :
  StronglySorted (fun a b => kle cmp (key a) (key b)) l ->
  StronglySorted (fun a b => kle cmp (key a) (key b)) (insert_by cmp key x l).
Proof.
  induction 1 as [|h t Hs IH Hh]; simpl.
  - repeat constructor.
  - assert (forall c, cmp (key x) (key h) = c -> c <> Gt ->
                      StronglySorted (fun a b => kle cmp (key a) (key b))
                                     (x :: h :: t)) as Hle.
    { intros c E Hc. constructor; [now constructor|].
      assert (kle cmp (key x) (key h)) as Hxh by (unfold kle; congruence).
      constructor; [exact Hxh|].
      eapply Forall_impl; [|exact Hh]. intros y Hy. eapply kle_trans; eauto. }
    destruct (cmp (key x) (key h)) eqn:E.
    + eapply Hle; [reflexivity | discriminate].
    + eapply Hle; [reflexivity | discriminate].
    + constructor; [exact IH|].
      apply Forall_forall. intros y Hy.
      apply (Permutation_in _ (insert_by_perm key x t)) in Hy.
      destruct Hy as [<-|Hy].
      * unfold kle. rewrite (cmp_gt_lt _ _ E). discriminate.
      * rewrite Forall_forall in Hh. now apply Hh.
Qed.

Lemma sort_values_sorted {A : Type} (key : A -> K) (l : list A) :
  StronglySorted (fun a b => kle cmp (key a) (key b)) (sort_values cmp key l).
Proof.
  induction l as [|h t IH]; simpl; [constructor|]. now apply insert_by_sorted.
Qed.
End KeyFacts.

(** ** Sums and groupings *)



Lemma filter_all {A : Type} (f : A -> bool) (l : list A) :
  (forall x, In x l -> f x = true) -> filter f l = l.
Proof.
  induction l as [|h t IH]; simpl; intros H; [reflexivity|].
  rewrite (H h (or_introl eq_refl)). f_equal. apply IH. intros x Hx. apply H. now right.
Qed.

Lemma filter_nil_iff {A : Type} (f : A -> bool) (l : list A) :
  filter f l = [] <-> forall x, In x l -> f x = false.
Proof.
  induction l as [|h t IH]; simpl.
  - split; [intros _ x [] | reflexivity].
  - destruct (f h) eqn:E.
    + split; [discriminate|]. intros H. specialize (H h (or_introl eq_refl)). congruence.
    + rewrite IH. split.
      * intros H x [<-|Hx]; auto.
      * intros H x Hx. apply H. now right.
Qed.

Section GroupFacts.
Context {K : Type} (cmp : K -> K -> comparison) (ord : CmpOrder cmp).
Variable key : Row -> K.

Lemma groupby_keys {V : Type} (agg : list Q -> V) (df : DataFrame) :
  map fst (groupby_agg cmp key agg df) = sorted_keys cmp (map key df).
Proof.
  unfold groupby_agg. rewrite map_map. simpl. apply map_id.
Qed.


Lemma groupby_In {V : Type} (agg : list Q -> V) (df : DataFrame) (k : K) (v : V) :
  In (k, v) (groupby_agg cmp key agg df) <->
  (exists r, In r df /\ key r = k) /\ v = agg (map sales (group cmp key k df)).
Proof.
  unfold groupby_agg. rewrite in_map_iff. split.
  - intros [k' [E Hk]]. inversion E; subst.
    rewrite (sorted_keys_In cmp ord), in_map_iff in Hk.
    destruct Hk as [r [Hr Hin]]. split; [exists r; auto | reflexivity].
  - intros [[r [Hin Hr]] ->]. exists k. split; [reflexivity|].
    apply (sorted_keys_In cmp ord). apply in_map_iff. exists r. auto.
Qed.

Lemma group_In (k : K) (df : DataFrame) (r : Row) :
  In r (group cmp key k df) <-> In r df /\ key r = k.
Proof.
  unfold group. rewrite filter_In. now rewrite (key_eqb_true cmp ord).
Qed.

Lemma group_nonempty (k : K) (df : DataFrame) :
  In k (map key df) -> group cmp key k df <> [].
Proof.
  intros H. apply in_map_iff in H. destruct H as [r [Hr Hin]].
  intros E. assert (In r (group cmp key k df)) as Hg by (apply group_In; auto).
  rewrite E in Hg. exact Hg.
Qed.

Lemma lookup_groupby {V : Type} (agg : list Q -> V) (df : DataFrame) (k : K) :
  lookup cmp k (groupby_agg cmp key agg df) =
  if existsb (fun r => key_eqb cmp (key r) k) df
  then Some (agg (map sales (group cmp key k df)))
  else None.
Proof.
  unfold groupby_agg.
  rewrite (lookup_tabulate cmp ord
             (fun k => agg (map sales (group cmp key k df)))).
  assert (existsb (key_eqb cmp k) (sorted_keys cmp (map key df))
          = existsb (fun r => key_eqb cmp (key r) k) df) as ->; [|reflexivity].
  apply eq_true_iff_eq.
  rewrite (existsb_key_In cmp ord), (sorted_keys_In cmp ord), in_map_iff, existsb_exists.
  split; intros [r H]; exists r.
  - destruct H as [E Hin]. split; [exact Hin|]. now apply (key_eqb_true cmp ord).
  - destruct H as [Hin E]. apply (key_eqb_true cmp ord) in E. auto.
Qed.





End GroupFacts.

(* ================================================================== *)
(** ** Filter Layer *)

Lemma leb_le (a b : Calendar.Date) : Calendar.leb a b = true <-> Calendar.le a b.
Proof.
  unfold Calendar.leb, Calendar.le.
  destruct (Calendar.compare a b); split; congruence.
Qed.

Lemma between_spec (left right d : Calendar.Date) :
  Calendar.between left right d = true <-> Calendar.le left d /\ Calendar.le d right.
Proof. unfold Calendar.between. now rewrite andb_true_iff, !leb_le. Qed.

Lemma isin_In (values : list string) (s : string) :
  isin values s = true <-> In s values.
Proof.
  unfold isin. rewrite existsb_exists. split.
  - intros [x [Hx E]]. apply String.eqb_eq in E. now subst.
  - intros H. exists s. split; [exact H | apply String.eqb_refl].
Qed.

Lemma filter_layer_In (df : DataFrame) (s e : Calendar.Date) (stores : list string)
      (r : Row) :
  In r (filter_layer df s e stores) <->
  In r df /\ Calendar.le s (date r) /\ Calendar.le (date r) e /\ In (store r) stores.
Proof.
  unfold filter_layer, filter_stores, filter_dates.
  rewrite !filter_In, between_spec, isin_In. tauto.
Qed.

Lemma df_period_1_filter_layer (df : DataFrame) (sb : Sidebar) :
  df_period_1 df sb =
  filter_layer df (start_date_1 sb) (end_date_1 sb) (selected_stores sb).
Proof. reflexivity. Qed.

Lemma df_period_2_filter_layer (df : DataFrame) (sb : Sidebar) :
  df_period_2 df sb =
  if compare_mode sb
  then filter_layer df (start_date_2 sb) (end_date_2 sb) (selected_stores sb)
  else [].
Proof.
  unfold df_period_2, filter_layer. destruct (compare_mode sb); [|reflexivity].
  destruct (filter_dates df (start_date_2 sb) (end_date_2 sb)); reflexivity.
Qed.

(** C1. The output of the Filter Layer holds exactly the rows of the
    dataset whose date lies in the inclusive range and whose store is
    selected: every output row satisfies both conditions, and the output is
    empty if and only if no row of the dataset satisfies both. Both period
    subsets of the script are outputs of this layer. *)
Theorem C1_filter_layer_sound_and_complete :
  forall (df : DataFrame) (start_date end_date : Calendar.Date)
         (stores : list string),
    let ok r := Calendar.le start_date (date r) /\ Calendar.le (date r) end_date
                /\ In (store r) stores in
    let out := filter_layer df start_date end_date stores in
    Forall ok out
    /\ (out = [] <-> (forall r, In r df -> ~ ok r))
    /\ (forall r, In r out <-> In r df /\ ok r)
    /\ (forall sb, df_period_1 df sb
                   = filter_layer df (start_date_1 sb) (end_date_1 sb)
                                  (selected_stores sb))
    /\ (forall sb, df_period_2 df sb
                   = if compare_mode sb
                     then filter_layer df (start_date_2 sb) (end_date_2 sb)
                                       (selected_stores sb)
                     else []).
Proof.
  intros df s e stores ok out.
  assert (forall r, In r out <-> In r df /\ ok r) as Hin
      by (intros r; apply filter_layer_In).
  split; [|split; [|split; [exact Hin|split]]].
  - apply Forall_forall. intros r Hr. now apply Hin.
  - split.
    + intros E r Hr Hok. assert (In r out) as H by (apply Hin; auto).
      rewrite E in H. exact H.
    + intros H. destruct out as [|r t] eqn:E; [reflexivity|].
      exfalso. destruct (proj1 (Hin r) (or_introl eq_refl)) as [Hr Hok].
      exact (H r Hr Hok).
  - intros sb. apply df_period_1_filter_layer.
  - intros sb. apply df_period_2_filter_layer.
Qed.

(* ================================================================== *)
(** ** KPI variation *)

Lemma Qltb_lt (a b : Q) : Qltb a b = true <-> (a < b)%Q.
Proof.
  unfold Qltb. rewrite negb_true_iff, <- not_true_iff_false, Qle_bool_iff.
  split; [apply Qnot_le_lt | apply Qlt_not_le].
Qed.

Lemma Qltb_ge (a b : Q) : Qltb a b = false <-> (b <= a)%Q.
Proof.
  unfold Qltb. rewrite negb_false_iff. apply Qle_bool_iff.
Qed.

Lemma delta_positive (v1 v2 : Q) :
  (0 < v2)%Q -> delta v1 v2 = Num ((v1 - v2) / v2 * 100)%Q.
Proof.
  intros H. unfold delta, pct_var. apply Qltb_lt in H. now rewrite H.
Qed.

Lemma delta_nonpositive (v1 v2 : Q) : (v2 <= 0)%Q -> delta v1 v2 = PosInf.
Proof.
  intros H. unfold delta, pct_var. apply Qltb_ge in H. now rewrite H.
Qed.

(** C2 as stated fails: with the comparison value -50, which is not zero,
    the variation is plus infinity and not the value of the formula. *)
Lemma C2_nonzero_comparison_counterexample :
  ~ (-50 == 0)%Q
  /\ delta 100 (-50) = PosInf
  /\ ~ (exists q, delta 100 (-50) = Num q /\ (q == (100 - -50) / -50 * 100)%Q).
Proof.
  split; [discriminate|]. split; [reflexivity|].
  intros [q [H _]]. discriminate H.
Qed.

(** C2, amended. The variation equals (value1 - value2) / value2 * 100
    when the comparison value is greater than zero, and plus infinity when
    it is zero or less; delta(150, 100) = 50, delta(100, 150) = -100/3 and
    delta(100, 0) = +infinity. *)
Theorem C2_delta_formula_when_positive :
  forall value1 value2 : Q,
    ((0 < value2)%Q -> delta value1 value2 = Num ((value1 - value2) / value2 * 100)%Q)
    /\ ((value2 <= 0)%Q -> delta value1 value2 = PosInf)
    /\ (exists q, delta 150 100 = Num q /\ (q == 50)%Q)
    /\ (exists q, delta 100 150 = Num q /\ (q == - (100 # 3))%Q)
    /\ delta 100 0 = PosInf.
Proof.
  intros v1 v2. split; [apply delta_positive|]. split; [apply delta_nonpositive|].
  split; [|split].
  - eexists. split; reflexivity.
  - eexists. split; reflexivity.
  - reflexivity.
Qed.

Lemma C2_delta_formula_witness :
  delta 150 100 = Num ((150 - 100) / 100 * 100)%Q /\ delta 100 0 = PosInf.
Proof.
  split.
  - apply (proj1 (C2_delta_formula_when_positive 150 100)). reflexivity.
  - apply (proj1 (proj2 (C2_delta_formula_when_positive 100 0))). discriminate.
Defined.

(** C9. The guard is [value2 > 0]: every comparison value less than or
    equal to zero, a strictly negative one included, gives plus infinity
    and not the value of the formula. *)
Theorem C9_delta_infinite_for_nonpositive_comparison :
  forall value1 value2 : Q,
    (value2 <= 0)%Q ->
    delta value1 value2 = PosInf
    /\ delta value1 value2 <> Num ((value1 - value2) / value2 * 100)%Q.
Proof.
  intros v1 v2 H. rewrite (delta_nonpositive _ _ H). split; [reflexivity|discriminate].
Qed.

Lemma C9_delta_negative_comparison_witness :
  delta 100 (-50) = PosInf
  /\ delta 100 (-50) <> Num ((100 - -50) / -50 * 100)%Q.
Proof.
  apply (C9_delta_infinite_for_nonpositive_comparison 100 (-50)). discriminate.
Defined.

(* ================================================================== *)
(** ** Builders on an empty table *)

Lemma empty_true_iff {A : Type} (l : list A) : empty l = true <-> l = [].
Proof. destruct l; simpl; split; congruence. Qed.

(** C8. On an empty table each chart builder returns no chart, after
    putting its note on the page; it returns a chart exactly when the table
    has a row. *)
Theorem C8_builders_return_none_on_empty :
  forall title : string,
    create_heatmap [] title
    = (None, [("No data available to generate heatmap: " ++ title)%string])
    /\ create_stats_barchart [] title
       = (None, [("No data available to generate stats chart: " ++ title)%string])
    /\ (forall df, fst (create_heatmap df title) = None <-> df = [])
    /\ (forall df, fst (create_stats_barchart df title) = None <-> df = []).
Proof.
  intros title. split; [reflexivity|]. split; [reflexivity|].
  split; intros [|r df]; simpl; split; congruence.
Qed.

(* ================================================================== *)
(** ** Composition by store *)



(* ================================================================== *)
(** ** Typical performance by store *)

Lemma mean_some (l : list Q) : l <> [] -> mean l <> None.
Proof. destruct l; simpl; congruence. Qed.

Lemma median_some (l : list Q) : l <> [] -> median l <> None.
Proof.
  destruct l as [|x l]; [congruence|]. intros _. unfold median.
  destruct (Nat.even _); discriminate.
Qed.

Lemma df_operating_days_In (df : DataFrame) (r : Row) :
  In r (df_operating_days df) <-> In r df /\ (0 < sales r)%Q.
Proof. unfold df_operating_days. now rewrite filter_In, Qltb_lt. Qed.

Lemma positive_iff_nonzero (x : Q) :
  (0 <= x)%Q -> Qltb 0 x = negb (Qeq_bool x 0).
Proof.
  intros H. apply eq_true_iff_eq.
  rewrite Qltb_lt, negb_true_iff, <- not_true_iff_false, Qeq_bool_iff. split.
  - intros Hlt E. rewrite E in Hlt. exact (Qlt_irrefl _ Hlt).
  - intros Hne. apply Qle_lt_or_eq in H. destruct H as [H|H]; [exact H|].
    exfalso. apply Hne. now symmetry.
Qed.

(** C3 as stated fails: a row with negative sales is removed too, so the
    figures are those of the rows with positive sales and not those of the
    rows with sales other than 0. *)
Lemma C3_negative_sales_counterexample :
  let rows := [mkRow (Calendar.mkDate 2024 1 1) "A" 10;
               mkRow (Calendar.mkDate 2024 1 2) "A" (-4)] in
  stats rows = [("A", (Some 10%Q, Some 10%Q))]
  /\ stats_excluding_zero_sales rows = [("A", (Some (6 # 2), Some (6 # 2)))]
  /\ ~ (10 == 6 # 2)%Q.
Proof. split; [reflexivity|]. split; [reflexivity|discriminate]. Qed.

(** C3, amended. The typical-performance aggregator first removes every
    row whose sales are not greater than 0 (zero or negative) and then
    computes mean and median of sales by store; a store with no row left is
    absent from the result, and every store present carries a mean and a
    median. For the rows (A,10), (A,0), (A,20) the mean and the median of A
    are 15. On a table without negative sales this is the removal of the
    rows with sales 0. *)
Theorem C3_stats_over_positive_sales :
  forall df : DataFrame,
    (forall r, In r (df_operating_days df) <-> In r df /\ (0 < sales r)%Q)
    /\ (forall s, In s (map fst (stats df)) <->
                  exists r, In r df /\ store r = s /\ (0 < sales r)%Q)
    /\ (forall s m md,
           In (s, (m, md)) (stats df) ->
           let xs := map sales (group String.compare store s (df_operating_days df)) in
           m = mean xs /\ md = median xs /\ m <> None /\ md <> None)
    /\ (exists m md,
           stats [mkRow (Calendar.mkDate 2024 1 1) "A" 10;
                  mkRow (Calendar.mkDate 2024 1 2) "A" 0;
                  mkRow (Calendar.mkDate 2024 1 3) "A" 20]
           = [("A", (Some m, Some md))] /\ (m == 15)%Q /\ (md == 15)%Q)
    /\ ((forall r, In r df -> (0 <= sales r)%Q) ->
        stats df = stats_excluding_zero_sales df).
Proof.
  intros df. split; [|split; [|split; [|split]]].
  - apply df_operating_days_In.
  - intros s. unfold stats. rewrite groupby_keys.
    rewrite (sorted_keys_In String.compare string_compare_order), in_map_iff.
    split.
    + intros [r [E Hr]]. apply df_operating_days_In in Hr. exists r. tauto.
    + intros [r [Hr [E Hpos]]]. exists r. split; [exact E|].
      apply df_operating_days_In. tauto.
  - intros s m md Hin. unfold stats in Hin.
    apply (groupby_In String.compare string_compare_order) in Hin.
    destruct Hin as [[r [Hr E]] Hv]. inversion Hv; subst. cbv zeta.
    assert (map sales (group String.compare store (store r) (df_operating_days df))
            <> []) as Hne.
    { intros H. apply map_eq_nil in H. revert H.
      apply (group_nonempty String.compare string_compare_order).
      now apply in_map. }
    repeat split; [now apply mean_some | now apply median_some].
  - eexists. eexists. split; [reflexivity|]. split; reflexivity.
  - intros Hnn. unfold stats, stats_excluding_zero_sales, df_operating_days.
    f_equal. apply filter_ext_in. intros r Hr. apply positive_iff_nonzero, Hnn, Hr.
Qed.

Lemma C3_stats_nonnegative_witness :
  stats [mkRow (Calendar.mkDate 2024 1 1) "StoreA" 100;
         mkRow (Calendar.mkDate 2024 1 8) "StoreA" 0;
         mkRow (Calendar.mkDate 2024 1 1) "StoreB" 50]
  = stats_excluding_zero_sales
      [mkRow (Calendar.mkDate 2024 1 1) "StoreA" 100;
       mkRow (Calendar.mkDate 2024 1 8) "StoreA" 0;
       mkRow (Calendar.mkDate 2024 1 1) "StoreB" 50].
Proof.
  apply (proj2 (proj2 (proj2 (proj2 (C3_stats_over_positive_sales _))))).
  intros r [<-|[<-|[<-|[]]]]; discriminate.
Defined.

(* ================================================================== *)
(** ** Data explorer *)

Lemma df_display_perm (d1 : DataFrame) :
  Permutation (df_display d1) (map display_row d1).
Proof. unfold df_display. apply sort_values_perm. Qed.

Lemma df_display_sorted_by_text (d1 : DataFrame) :
  StronglySorted (fun a b => kle String.compare (d_date b) (d_date a))
                 (df_display d1).
Proof.
  unfold df_display.
  apply (sort_values_sorted (descending String.compare)
                            (descending_order _ string_compare_order)).
Qed.

(** C4. The explorer shows the rows of the main-period subset, each one
    formatted, and orders them by the date text DD/MM/YYYY from the largest
    text down. That is not the order of the dates: 31 January 2024 is shown
    above 1 February 2024. *)
Theorem C4_explorer_sorts_date_text :
  (forall d1, Permutation (df_display d1) (map display_row d1))
  /\ (forall d1, StronglySorted
                   (fun a b => kle String.compare (d_date b) (d_date a))
                   (df_display d1))
  /\ (let jan31 := mkRow (Calendar.mkDate 2024 1 31) "A" 10 in
      let feb01 := mkRow (Calendar.mkDate 2024 2 1) "A" 20 in
      df_display [jan31; feb01] = [display_row jan31; display_row feb01]
      /\ df_display [feb01; jan31] = [display_row jan31; display_row feb01]
      /\ map d_date (df_display [jan31; feb01]) = ["31/01/2024"; "01/02/2024"]
      /\ Calendar.compare (date jan31) (date feb01) = Lt).
Proof.
  split; [apply df_display_perm|]. split; [apply df_display_sorted_by_text|].
  cbv zeta. repeat split; reflexivity.
Qed.

(* ================================================================== *)
(** ** Day-of-week heatmap *)

Lemma store_day_order : CmpOrder (pair_compare String.compare String.compare).
Proof. apply pair_compare_order; apply string_compare_order. Qed.

Lemma combine_tabulate {A B : Type} (f : A -> B) (l : list A) :
  combine l (map f l) = map (fun a => (a, f a)) l.
Proof. induction l as [|a l IH]; simpl; [reflexivity|]. now rewrite IH. Qed.

Lemma group_nil_iff {K : Type} (cmp : K -> K -> comparison) (ord : CmpOrder cmp)
      (key : Row -> K) (k : K) (df : DataFrame) :
  group cmp key k df = [] <-> ~ exists r, In r df /\ key r = k.
Proof.
  unfold group. etransitivity; [apply filter_nil_iff|]. split.
  - intros H [r [Hr E]]. specialize (H r Hr).
    apply (key_eqb_false cmp ord) in H. contradiction.
  - intros H r Hr. apply (key_eqb_false cmp ord). intros E. apply H. eauto.
Qed.

Lemma mean_none_iff (l : list Q) : mean l = None <-> l = [].
Proof. destruct l; simpl; split; congruence. Qed.

(** The mean recorded for a (store, day) pair, or nothing when no row
    carries the pair. *)
Lemma grouped_cell (df : DataFrame) (s d : string) :
  cell_or_nan (pair_compare String.compare String.compare) (s, d)
              (groupby_agg (pair_compare String.compare String.compare)
                           store_day mean df)
  = mean (map sales (group (pair_compare String.compare String.compare)
                           store_day (s, d) df)).
Proof.
  unfold cell_or_nan. rewrite (lookup_groupby _ store_day_order).
  destruct (existsb _ df) eqn:E; [reflexivity|].
  symmetry. apply mean_none_iff.
  assert (group (pair_compare String.compare String.compare) store_day (s, d) df = [])
    as ->; [|reflexivity].
  apply (group_nil_iff _ store_day_order). intros [r [Hr Hk]].
  apply not_true_iff_false in E. apply E.
  apply existsb_exists. exists r. split; [exact Hr|].
  now apply (key_eqb_true _ store_day_order).
Qed.

Lemma pivot_columns_In (df : DataFrame) (d : string) :
  In d (columns (pivot_table df)) <-> exists r, In r df /\ day_of_week r = d.
Proof.
  unfold pivot_table; simpl.
  rewrite (sorted_keys_In _ string_compare_order), in_map_iff. split.
  - intros [[[s d'] v] [E Hin]]. simpl in E. subst.
    apply (groupby_In _ store_day_order) in Hin.
    destruct Hin as [[r [Hr Hk]] _]. exists r. split; [exact Hr|].
    unfold store_day in Hk. congruence.
  - intros [r [Hr E]]. exists (store_day r, mean (map sales
      (group (pair_compare String.compare String.compare) store_day (store_day r) df))).
    split; [simpl; exact E|].
    apply (groupby_In _ store_day_order). split; [eauto|reflexivity].
Qed.

Lemma pivot_index_In (df : DataFrame) (s : string) :
  In s (index (pivot_table df)) <-> exists r, In r df /\ store r = s.
Proof.
  unfold pivot_table; simpl.
  rewrite (sorted_keys_In _ string_compare_order), in_map_iff. split.
  - intros [[[s' d] v] [E Hin]]. simpl in E. subst.
    apply (groupby_In _ store_day_order) in Hin.
    destruct Hin as [[r [Hr Hk]] _]. exists r. split; [exact Hr|].
    unfold store_day in Hk. congruence.
  - intros [r [Hr E]]. exists (store_day r, mean (map sales
      (group (pair_compare String.compare String.compare) store_day (store_day r) df))).
    split; [simpl; exact E|].
    apply (groupby_In _ store_day_order). split; [eauto|reflexivity].
Qed.

Lemma pivot_index_sorted (df : DataFrame) :
  StronglySorted (klt String.compare) (index (pivot_table df)).
Proof. apply (sorted_keys_sorted _ string_compare_order). Qed.

Lemma pivot_index_stores (df : DataFrame) :
  index (pivot_table df) = sorted_keys String.compare (map store df).
Proof.
  apply (sorted_unique _ string_compare_order).
  - apply pivot_index_sorted.
  - apply (sorted_keys_sorted _ string_compare_order).
  - intros s. rewrite pivot_index_In, (sorted_keys_In _ string_compare_order), in_map_iff.
    split; intros [r H]; exists r; tauto.
Qed.

Lemma reindexed_cells (labels : list string) (df : DataFrame) :
  cells (reindex_columns labels (pivot_table df))
  = map (fun s =>
           map (fun d => mean (map sales
                  (group (pair_compare String.compare String.compare)
                         store_day (s, d) df)))
               labels)
        (index (pivot_table df)).
Proof.
  change (cells (reindex_columns labels (pivot_table df)))
    with (map (fun row =>
                 map (fun c => cell_or_nan String.compare c
                                 (combine (columns (pivot_table df)) row))
                     labels)
              (map (fun i =>
                      map (fun c =>
                             cell_or_nan (pair_compare String.compare String.compare)
                               (i, c)
                               (groupby_agg (pair_compare String.compare String.compare)
                                            store_day mean df))
                          (columns (pivot_table df)))
                   (index (pivot_table df)))).
  rewrite map_map.
  apply map_ext. intros s. apply map_ext. intros d.
  unfold cell_or_nan at 1.
  rewrite combine_tabulate, (lookup_tabulate _ string_compare_order).
  destruct (existsb (key_eqb String.compare d) (columns (pivot_table df))) eqn:E.
  - apply grouped_cell.
  - symmetry. apply mean_none_iff.
    assert (group (pair_compare String.compare String.compare) store_day (s, d) df = [])
      as ->; [|reflexivity].
    apply (group_nil_iff _ store_day_order). intros [r [Hr Hk]].
    apply not_true_iff_false in E. apply E.
    apply (existsb_key_In _ string_compare_order), pivot_columns_In.
    exists r. split; [exact Hr|]. unfold store_day in Hk. congruence.
Qed.

Lemma heatmap_cells (df : DataFrame) :
  cells (heatmap_data df)
  = map (fun s =>
           map (fun d => mean (map sales
                  (group (pair_compare String.compare String.compare)
                         store_day (s, d) df)))
               ordered_days)
        (index (heatmap_data df)).
Proof. apply reindexed_cells. Qed.

Lemma heatmap_index_perm (df df' : DataFrame) :
  Permutation df df' -> index (heatmap_data df') = index (heatmap_data df).
Proof.
  intros H. change (index (pivot_table df') = index (pivot_table df)).
  rewrite !pivot_index_stores.
  apply (sorted_keys_same_elements _ string_compare_order).
  intros s. split; apply Permutation_in, Permutation_map;
    [now apply Permutation_sym | exact H].
Qed.

(** C5. The heatmap table has the stores of the input as rows and the
    seven day names as columns, always in the order Monday to Sunday,
    whatever the order of the input rows; the cell of a store and a day
    holds the mean of the sales of the rows with that store and that day,
    and is empty (not zero) when there is no such row. A non-empty input
    gives a figure built on that table. *)
Theorem C5_heatmap_columns_monday_to_sunday :
  forall (df : DataFrame) (title : string),
    columns (heatmap_data df)
    = ["Monday"; "Tuesday"; "Wednesday"; "Thursday"; "Friday"; "Saturday"; "Sunday"]
    /\ index (heatmap_data df) = sorted_keys String.compare (map store df)
    /\ cells (heatmap_data df)
       = map (fun s =>
                map (fun d => mean (map sales
                       (group (pair_compare String.compare String.compare)
                              store_day (s, d) df)))
                    (columns (heatmap_data df)))
             (index (heatmap_data df))
    /\ (forall s d r,
           In r (group (pair_compare String.compare String.compare)
                       store_day (s, d) df)
           <-> In r df /\ store r = s /\ day_of_week r = d)
    /\ (forall s d,
           mean (map sales (group (pair_compare String.compare String.compare)
                                  store_day (s, d) df)) = None
           <-> ~ exists r, In r df /\ store r = s /\ day_of_week r = d)
    /\ (forall df', Permutation df df' ->
                    columns (heatmap_data df') = columns (heatmap_data df)
                    /\ index (heatmap_data df') = index (heatmap_data df))
    /\ (df <> [] ->
        create_heatmap df title
        = (Some (mkHeatmap (heatmap_data df) ordered_days
                           (index (heatmap_data df)) title), [])).
Proof.
  intros df title.
  split; [reflexivity|]. split; [apply pivot_index_stores|].
  split; [apply heatmap_cells|]. split; [|split; [|split]].
  - intros s d r. rewrite (group_In _ store_day_order). unfold store_day.
    split; intros [H1 H2]; (split; [exact H1|]).
    + now inversion H2.
    + destruct H2 as [-> ->]. reflexivity.
  - intros s d. rewrite mean_none_iff. split.
    + intros H [r [Hr [Hs Hd]]]. apply map_eq_nil in H.
      apply (group_nil_iff _ store_day_order) in H. apply H.
      exists r. split; [exact Hr|]. unfold store_day. congruence.
    + intros H.
      assert (group (pair_compare String.compare String.compare)
                    store_day (s, d) df = []) as ->; [|reflexivity].
      apply (group_nil_iff _ store_day_order). intros [r [Hr Hk]]. apply H.
      exists r. unfold store_day in Hk. inversion Hk. auto.
  - intros df' Hp. split; [reflexivity | now apply heatmap_index_perm].
  - intros Hne. unfold create_heatmap. destruct df; [congruence|reflexivity].
Qed.

Lemma C5_heatmap_witness :
  create_heatmap [mkRow (Calendar.mkDate 2024 1 7) "StoreB" 50;
                  mkRow (Calendar.mkDate 2024 1 1) "StoreA" 100]
                 "Main Period"
  = (Some (mkHeatmap
             (mkPivot ["StoreA"; "StoreB"] ordered_days
                      [[Some 100%Q; None; None; None; None; None; None];
                       [None; None; None; None; None; None; Some 50%Q]])
             ordered_days ["StoreA"; "StoreB"] "Main Period"), []).
Proof.
  apply (proj2 (proj2 (proj2 (proj2 (proj2 (proj2
    (C5_heatmap_columns_monday_to_sunday
       [mkRow (Calendar.mkDate 2024 1 7) "StoreB" 50;
        mkRow (Calendar.mkDate 2024 1 1) "StoreA" 100] "Main Period"))))))).
  discriminate.
Defined.

(* ================================================================== *)
(** ** Monthly trend, two periods *)

Lemma month_key_order : CmpOrder (pair_compare Z.compare String.compare).
Proof. apply pair_compare_order; [apply Z_compare_order | apply string_compare_order]. Qed.

Lemma insert_by_map {K A B : Type} (cmp : K -> K -> comparison) (f : A -> B)
      (key : A -> K) (keyB : B -> K) (x : A) (l : list A) :
  (forall a, keyB (f a) = key a) ->
  map f (insert_by cmp key x l) = insert_by cmp keyB (f x) (map f l).
Proof.
  intros H. induction l as [|h t IH]; simpl; [reflexivity|].
  rewrite !H. destruct (cmp (key x) (key h)); simpl; try reflexivity.
  now rewrite IH.
Qed.

Lemma sort_values_map {K A B : Type} (cmp : K -> K -> comparison) (f : A -> B)
      (key : A -> K) (keyB : B -> K) (l : list A) :
  (forall a, keyB (f a) = key a) ->
  map f (sort_values cmp key l) = sort_values cmp keyB (map f l).
Proof.
  intros H. unfold sort_values.
  induction l as [|h t IH]; simpl; [reflexivity|].
  now rewrite (insert_by_map cmp f key keyB), IH.
Qed.

Lemma monthly_sales_labels (d : DataFrame) (p : string) :
  map trend_label (monthly_sales d p)
  = map (fun k => (fst k, snd k, p))
        (sorted_keys (pair_compare Z.compare String.compare) (map month_key d)).
Proof.
  unfold monthly_sales, groupby_agg. rewrite !map_map. reflexivity.
Qed.

Lemma monthly_sales_labels_perm (d d' : DataFrame) (p : string) :
  Permutation d d' ->
  map trend_label (monthly_sales d p) = map trend_label (monthly_sales d' p).
Proof.
  intros H. rewrite !monthly_sales_labels. f_equal.
  apply (sorted_keys_same_elements _ month_key_order).
  intros k. split; apply Permutation_in, Permutation_map;
    [exact H | now apply Permutation_sym].
Qed.

Lemma plot_df_comparison_labels (d1 d2 : DataFrame) :
  map trend_label (plot_df_comparison d1 d2)
  = sort_values Z.compare (fun t => fst (fst t))
                (map trend_label (monthly_sales d1 "Main")
                 ++ map trend_label (monthly_sales d2 "Comparison")).
Proof.
  unfold plot_df_comparison.
  rewrite (sort_values_map Z.compare trend_label t_month_num (fun t => fst (fst t)))
    by reflexivity.
  now rewrite map_app.
Qed.

Lemma plot_df_comparison_labels_perm (d1 d1' d2 d2' : DataFrame) :
  Permutation d1 d1' -> Permutation d2 d2' ->
  map trend_label (plot_df_comparison d1 d2)
  = map trend_label (plot_df_comparison d1' d2').
Proof.
  intros H1 H2. rewrite !plot_df_comparison_labels.
  now rewrite (monthly_sales_labels_perm _ _ _ H1), (monthly_sales_labels_perm _ _ _ H2).
Qed.

Lemma month_group_filter (d : DataFrame) (m : Z) :
  group (pair_compare Z.compare String.compare) month_key
        (m, Calendar.month_abbr m) d
  = filter (fun r => month_num r =? m) d.
Proof.
  unfold group. apply filter_ext. intros r. apply eq_true_iff_eq.
  rewrite (key_eqb_true _ month_key_order), Z.eqb_eq. unfold month_key, month_name.
  split; [intros H; now inversion H | intros ->; reflexivity].
Qed.

Lemma monthly_sales_In (d : DataFrame) (p : string) (row : TrendRow) :
  In row (monthly_sales d p) <->
  exists m, (exists r, In r d /\ month_num r = m)
            /\ row = mkTrend m (Calendar.month_abbr m)
                             (Qsum (map sales (filter (fun r => month_num r =? m) d))) p.
Proof.
  unfold monthly_sales. rewrite in_map_iff. split.
  - intros [[[m n] v] [E Hin]]. simpl in E. subst row.
    apply (groupby_In _ month_key_order) in Hin.
    destruct Hin as [[r [Hr Hk]] ->]. unfold month_key, month_name in Hk.
    inversion Hk; subst. exists (month_num r). split; [eauto|].
    now rewrite month_group_filter.
  - intros [m [[r [Hr Hm]] ->]].
    exists ((m, Calendar.month_abbr m),
            Qsum (map sales (filter (fun r => month_num r =? m) d))).
    split; [reflexivity|].
    apply (groupby_In _ month_key_order). split.
    + exists r. split; [exact Hr|]. unfold month_key, month_name. now rewrite Hm.
    + now rewrite month_group_filter.
Qed.

Lemma month_keys_increasing (l : list (Z * string)) :
  StronglySorted (klt (pair_compare Z.compare String.compare)) l ->
  Forall (fun k => snd k = Calendar.month_abbr (fst k)) l ->
  StronglySorted Z.lt (map fst l).
Proof.
  induction 1 as [|a t Hs IH Ha]; intros Hf; simpl; [constructor|].
  inversion Hf as [|? ? Hfa Hft]; subst.
  constructor; [now apply IH|].
  rewrite Forall_forall in *. intros n Hn. apply in_map_iff in Hn.
  destruct Hn as [b [<- Hb]]. specialize (Ha b Hb). specialize (Hft b Hb).
  unfold klt, pair_compare in Ha.
  destruct (fst a ?= fst b) eqn:E; try discriminate.
  - apply Z.compare_eq_iff in E. rewrite Hfa, Hft, E, string_compare_refl in Ha.
    discriminate.
  - exact E.
Qed.

Lemma monthly_sales_increasing (d : DataFrame) (p : string) :
  StronglySorted Z.lt (map t_month_num (monthly_sales d p)).
Proof.
  assert (map t_month_num (monthly_sales d p)
          = map fst (sorted_keys (pair_compare Z.compare String.compare)
                                 (map month_key d))) as ->.
  { unfold monthly_sales, groupby_agg. rewrite !map_map. reflexivity. }
  apply month_keys_increasing.
  - apply (sorted_keys_sorted _ month_key_order).
  - apply Forall_forall. intros k Hk.
    rewrite (sorted_keys_In _ month_key_order), in_map_iff in Hk.
    destruct Hk as [r [<- _]]. reflexivity.
Qed.

Lemma plot_df_comparison_sorted (d1 d2 : DataFrame) :
  StronglySorted (fun a b => t_month_num a <= t_month_num b)
                 (plot_df_comparison d1 d2).
Proof.
  unfold plot_df_comparison. apply (sort_values_sorted Z.compare Z_compare_order).
Qed.

(** C6. With two periods the monthly trend holds, for each period, one
    point per calendar month present, carrying the sum of the sales of that
    month and the period's label; the two series are put together and
    ordered by month number. The months of the result do not depend on the
    order of the input rows: rows of March, January and February, in any
    order, give January, February, March. *)
Theorem C6_monthly_comparison_in_calendar_order :
  forall d1 d2 : DataFrame,
    Permutation (plot_df_comparison d1 d2)
                (monthly_sales d1 "Main" ++ monthly_sales d2 "Comparison")
    /\ StronglySorted (fun a b => t_month_num a <= t_month_num b)
                      (plot_df_comparison d1 d2)
    /\ (forall d p row,
           In row (monthly_sales d p) <->
           exists m, (exists r, In r d /\ month_num r = m)
                     /\ row = mkTrend m (Calendar.month_abbr m)
                                      (Qsum (map sales
                                         (filter (fun r => month_num r =? m) d))) p)
    /\ (forall d p, StronglySorted Z.lt (map t_month_num (monthly_sales d p)))
    /\ (forall sb, comparing sb d2 = true ->
                   plot_df sb d1 d2 = MonthlyComparison (plot_df_comparison d1 d2))
    /\ (forall d1' d2', Permutation d1 d1' -> Permutation d2 d2' ->
                        map trend_label (plot_df_comparison d1' d2')
                        = map trend_label (plot_df_comparison d1 d2))
    /\ (let mar := mkRow (Calendar.mkDate 2024 3 5) "A" 30 in
        let jan := mkRow (Calendar.mkDate 2024 1 9) "A" 10 in
        let feb := mkRow (Calendar.mkDate 2024 2 7) "B" 20 in
        forall d p, Permutation [mar; jan; feb] d ->
                    map t_month_name (monthly_sales d p) = ["Jan"; "Feb"; "Mar"]
                    /\ map t_month_name (plot_df_comparison d d)
                       = ["Jan"; "Jan"; "Feb"; "Feb"; "Mar"; "Mar"]).
Proof.
  intros d1 d2.
  split; [apply sort_values_perm|]. split; [apply plot_df_comparison_sorted|].
  split; [apply monthly_sales_In|]. split; [apply monthly_sales_increasing|].
  split; [|split].
  - intros sb H. unfold plot_df. now rewrite H.
  - intros d1' d2' H1 H2. symmetry. now apply plot_df_comparison_labels_perm.
  - cbv zeta. intros d p Hp. split.
    + assert (forall l, map t_month_name l = map (fun t => snd (fst t)) (map trend_label l))
        as E by (intros l; now rewrite map_map).
      rewrite E, <- (monthly_sales_labels_perm _ _ p Hp). reflexivity.
    + assert (forall l, map t_month_name l = map (fun t => snd (fst t)) (map trend_label l))
        as E by (intros l; now rewrite map_map).
      rewrite E, <- (plot_df_comparison_labels_perm _ _ _ _ Hp Hp). reflexivity.
Qed.

Lemma C6_monthly_comparison_witness :
  plot_df (mkSidebar true (Calendar.mkDate 2024 1 1) (Calendar.mkDate 2024 3 31)
                     (Calendar.mkDate 2023 1 1) (Calendar.mkDate 2023 3 31) ["A"])
          [mkRow (Calendar.mkDate 2024 3 5) "A" 30;
           mkRow (Calendar.mkDate 2024 1 9) "A" 10]
          [mkRow (Calendar.mkDate 2023 2 7) "A" 20]
  = MonthlyComparison
      [mkTrend 1 "Jan" 10 "Main"; mkTrend 2 "Feb" 20 "Comparison";
       mkTrend 3 "Mar" 30 "Main"].
Proof.
  apply (proj1 (proj2 (proj2 (proj2 (proj2
    (C6_monthly_comparison_in_calendar_order
       [mkRow (Calendar.mkDate 2024 3 5) "A" 30;
        mkRow (Calendar.mkDate 2024 1 9) "A" 10]
       [mkRow (Calendar.mkDate 2023 2 7) "A" 20])))))
    (mkSidebar true (Calendar.mkDate 2024 1 1) (Calendar.mkDate 2024 3 31)
               (Calendar.mkDate 2023 1 1) (Calendar.mkDate 2023 3 31) ["A"])).
  reflexivity.
Defined.

(* ================================================================== *)
(** ** Monthly trend, one period *)

Lemma digit_compare (a b : Z) :
  0 <= a <= 9 -> 0 <= b <= 9 ->
  Ascii.compare (Calendar.digit a) (Calendar.digit b) = (a ?= b).
Proof.
  intros Ha Hb. unfold Ascii.compare, Calendar.digit.
  rewrite !N_ascii_embedding by lia.
  rewrite <- N2Z.inj_compare, !N2Z.inj_add, !Z2N.id by lia.
  apply Z.add_compare_mono_l.
Qed.

Lemma string_length_append (s t : string) :
  String.length (s ++ t) = (String.length s + String.length t)%nat.
Proof. induction s as [|c s IH]; simpl; [reflexivity|]. now rewrite IH. Qed.

Lemma pad_length (w : nat) (n : Z) : String.length (Calendar.pad w n) = w.
Proof.
  revert n. induction w as [|w IH]; intros n; simpl; [reflexivity|].
  rewrite string_length_append, IH. simpl. lia.
Qed.

(** Strings that start with parts of the same length compare part by part. *)
Lemma string_compare_append (s1 s2 t1 t2 : string) :
  String.length s1 = String.length s2 ->
  String.compare (s1 ++ t1) (s2 ++ t2)
  = match String.compare s1 s2 with
    | Eq => String.compare t1 t2
    | c => c
    end.
Proof.
  revert s2. induction s1 as [|a s1 IH]; intros [|b s2]; simpl; try discriminate.
  - reflexivity.
  - intros H. destruct (Ascii.compare a b); try reflexivity. apply IH. congruence.
Qed.

Lemma compare_by_digits (a b : Z) :
  match a / 10 ?= b / 10 with
  | Eq => a mod 10 ?= b mod 10
  | c => c
  end = (a ?= b).
Proof.
  pose proof (Z.div_mod a 10 ltac:(lia)) as Ea.
  pose proof (Z.div_mod b 10 ltac:(lia)) as Eb.
  pose proof (Z.mod_pos_bound a 10 ltac:(lia)) as Ba.
  pose proof (Z.mod_pos_bound b 10 ltac:(lia)) as Bb.
  destruct (Z.compare_spec (a / 10) (b / 10)) as [E|E|E].
  - destruct (Z.compare_spec (a mod 10) (b mod 10)); symmetry;
      [apply Z.compare_eq_iff | apply Z.compare_lt_iff | apply Z.compare_gt_iff]; lia.
  - symmetry. apply Z.compare_lt_iff. lia.
  - symmetry. apply Z.compare_gt_iff. lia.
Qed.

(** Zero-padded numbers of one width compare as the numbers do. *)
Lemma pad_compare (w : nat) (a b : Z) :
  0 <= a < 10 ^ Z.of_nat w -> 0 <= b < 10 ^ Z.of_nat w ->
  String.compare (Calendar.pad w a) (Calendar.pad w b) = (a ?= b).
Proof.
  revert a b. induction w as [|w IH]; intros a b Ha Hb.
  - simpl in *. assert (a = 0) as -> by lia. assert (b = 0) as -> by lia. reflexivity.
  - rewrite Nat2Z.inj_succ, Z.pow_succ_r in Ha, Hb by lia.
    pose proof (Z.div_mod a 10 ltac:(lia)) as Ea.
    pose proof (Z.div_mod b 10 ltac:(lia)) as Eb.
    pose proof (Z.mod_pos_bound a 10 ltac:(lia)) as Ba.
    pose proof (Z.mod_pos_bound b 10 ltac:(lia)) as Bb.
    simpl Calendar.pad.
    rewrite string_compare_append by now rewrite !pad_length.
    rewrite IH by lia. simpl String.compare.
    rewrite digit_compare by lia.
    rewrite <- (compare_by_digits a b).
    destruct (a / 10 ?= b / 10); try reflexivity.
    now destruct (a mod 10 ?= b mod 10).
Qed.

(** Year-month labels sort as the months they name. *)
Lemma period_label_compare (y1 m1 y2 m2 : Z) :
  0 <= y1 < 10000 -> 0 <= y2 < 10000 -> 0 <= m1 < 100 -> 0 <= m2 < 100 ->
  String.compare (Calendar.period_label y1 m1) (Calendar.period_label y2 m2)
  = pair_compare Z.compare Z.compare (y1, m1) (y2, m2).
Proof.
  intros Hy1 Hy2 Hm1 Hm2. unfold Calendar.period_label, pair_compare. simpl fst. simpl snd.
  rewrite string_compare_append by now rewrite !pad_length.
  rewrite (pad_compare 4) by (simpl; lia).
  destruct (y1 ?= y2); try reflexivity.
  rewrite (string_compare_append "-" "-") by reflexivity.
  simpl (String.compare "-" "-").
  apply (pad_compare 2); simpl; lia.
Qed.

Lemma insert_key_Forall {K : Type} (cmp : K -> K -> comparison) (P : K -> Prop)
      (k : K) (l : list K) :
  P k -> Forall P l -> Forall P (insert_key cmp k l).
Proof.
  intros Hk. induction 1 as [|h t Hh Ht IH]; simpl.
  - now constructor.
  - destruct (cmp k h); repeat constructor; auto.
Qed.

Lemma sorted_keys_Forall {K : Type} (cmp : K -> K -> comparison) (P : K -> Prop)
      (l : list K) :
  Forall P l -> Forall P (sorted_keys cmp l).
Proof.
  induction 1 as [|h t Hh Ht IH]; simpl; [constructor|].
  now apply insert_key_Forall.
Qed.

(** A map that preserves the comparison carries sorted keys to sorted keys. *)
Lemma insert_key_map {A B : Type} (ca : A -> A -> comparison)
      (cb : B -> B -> comparison) (f : A -> B) (P : A -> Prop) :
  (forall a b, P a -> P b -> cb (f a) (f b) = ca a b) ->
  forall (k : A) (l : list A),
    P k -> Forall P l ->
    insert_key cb (f k) (map f l) = map f (insert_key ca k l).
Proof.
  intros H k l Hk. induction 1 as [|h t Hh Ht IH]; simpl; [reflexivity|].
  rewrite (H k h Hk Hh). destruct (ca k h); simpl; try reflexivity.
  now rewrite IH.
Qed.

Lemma sorted_keys_map {A B : Type} (ca : A -> A -> comparison)
      (cb : B -> B -> comparison) (f : A -> B) (P : A -> Prop) :
  (forall a b, P a -> P b -> cb (f a) (f b) = ca a b) ->
  forall l : list A,
    Forall P l -> sorted_keys cb (map f l) = map f (sorted_keys ca l).
Proof.
  intros H. induction 1 as [|h t Hh Ht IH]; simpl; [reflexivity|].
  rewrite IH. apply (insert_key_map ca cb f P H); [exact Hh|].
  now apply sorted_keys_Forall.
Qed.

Lemma year_month_order : CmpOrder (pair_compare Z.compare Z.compare).
Proof. apply pair_compare_order; apply Z_compare_order. Qed.

Lemma month_year_compare (r1 r2 : Row) :
  Calendar.valid (date r1) -> Calendar.valid (date r2) ->
  String.compare (month_year r1) (month_year r2)
  = pair_compare Z.compare Z.compare (year_month r1) (year_month r2).
Proof.
  unfold Calendar.valid, month_year, year_month, year, month_num.
  intros H1 H2. apply period_label_compare; lia.
Qed.

Lemma month_year_inj (r1 r2 : Row) :
  Calendar.valid (date r1) -> Calendar.valid (date r2) ->
  (month_year r1 = month_year r2 <-> year r1 = year r2 /\ month_num r1 = month_num r2).
Proof.
  intros H1 H2. split.
  - intros E. pose proof (month_year_compare r1 r2 H1 H2) as C.
    rewrite E, string_compare_refl in C. symmetry in C.
    apply (cmp_eq _ year_month_order) in C. unfold year_month in C.
    now inversion C.
  - intros [Ey Em]. unfold month_year. now rewrite Ey, Em.
Qed.

Lemma evolution_labels_chronological (d1 : DataFrame) :
  Forall (fun r => Calendar.valid (date r)) d1 ->
  map fst (plot_df_evolution d1)
  = map (fun ym => Calendar.period_label (fst ym) (snd ym))
        (sorted_keys (pair_compare Z.compare Z.compare) (map year_month d1)).
Proof.
  intros Hv. unfold plot_df_evolution. rewrite groupby_keys.
  assert (map month_year d1
          = map (fun ym => Calendar.period_label (fst ym) (snd ym))
                (map year_month d1)) as -> by (now rewrite map_map).
  apply (sorted_keys_map _ _ _
           (fun ym => 0 <= fst ym < 10000 /\ 0 <= snd ym < 100)).
  - intros [y1 m1] [y2 m2] [Hy1 Hm1] [Hy2 Hm2]. simpl in *.
    now apply period_label_compare.
  - apply Forall_forall. intros ym Hin. apply in_map_iff in Hin.
    destruct Hin as [r [<- Hr]]. rewrite Forall_forall in Hv. specialize (Hv r Hr).
    unfold Calendar.valid in Hv. unfold year_month, year, month_num. simpl. lia.
Qed.

(** C10. Without a comparison the monthly trend sums the sales by
    year-month label: one point per label present, holding the sum of the
    rows under it, the labels in increasing text order. For dates a
    timestamp can hold, two rows share a label only if they share year and
    month (the same month of two years gives two points), and the labels
    are those of the (year, month) pairs of the data in chronological
    order. *)
Theorem C10_monthly_evolution_by_year_month :
  forall d1 : DataFrame,
    (forall sb d2, compare_mode sb = false ->
                   plot_df sb d1 d2 = MonthlyEvolution (plot_df_evolution d1))
    /\ (forall label v,
           In (label, v) (plot_df_evolution d1) <->
           (exists r, In r d1 /\ month_year r = label)
           /\ v = Qsum (map sales (group String.compare month_year label d1)))
    /\ StronglySorted (klt String.compare) (map fst (plot_df_evolution d1))
    /\ StronglySorted (klt (pair_compare Z.compare Z.compare))
                      (sorted_keys (pair_compare Z.compare Z.compare)
                                   (map year_month d1))
    /\ (Forall (fun r => Calendar.valid (date r)) d1 ->
        map fst (plot_df_evolution d1)
        = map (fun ym => Calendar.period_label (fst ym) (snd ym))
              (sorted_keys (pair_compare Z.compare Z.compare) (map year_month d1))
        /\ (forall r1 r2, In r1 d1 -> In r2 d1 ->
                          (month_year r1 = month_year r2 <->
                           year r1 = year r2 /\ month_num r1 = month_num r2)))
    /\ plot_df_evolution [mkRow (Calendar.mkDate 2024 1 15) "A" 10;
                          mkRow (Calendar.mkDate 2023 1 20) "A" 5;
                          mkRow (Calendar.mkDate 2024 1 3) "B" 7]
       = [("2023-01", 5%Q); ("2024-01", 17%Q)].
Proof.
  intros d1. split; [|split; [|split; [|split; [|split]]]].
  - intros sb d2 H. unfold plot_df, comparing. now rewrite H.
  - intros label v. apply (groupby_In _ string_compare_order).
  - unfold plot_df_evolution. rewrite groupby_keys.
    apply (sorted_keys_sorted _ string_compare_order).
  - apply (sorted_keys_sorted _ year_month_order).
  - intros Hv. split; [now apply evolution_labels_chronological|].
    intros r1 r2 H1 H2. rewrite Forall_forall in Hv. apply month_year_inj; auto.
  - reflexivity.
Qed.

Lemma C10_monthly_evolution_witness :
  map fst (plot_df_evolution [mkRow (Calendar.mkDate 2024 1 15) "A" 10;
                              mkRow (Calendar.mkDate 2023 1 20) "A" 5;
                              mkRow (Calendar.mkDate 2023 12 3) "B" 7])
  = map (fun ym => Calendar.period_label (fst ym) (snd ym))
        [(2023, 1); (2023, 12); (2024, 1)].
Proof.
  apply (proj1 (proj2 (proj2 (proj2 (proj2
    (C10_monthly_evolution_by_year_month
       [mkRow (Calendar.mkDate 2024 1 15) "A" 10;
        mkRow (Calendar.mkDate 2023 1 20) "A" 5;
        mkRow (Calendar.mkDate 2023 12 3) "B" 7])))))).
  repeat (apply Forall_cons; [unfold Calendar.valid; simpl; lia|]).
  apply Forall_nil.
Defined.

(* ================================================================== *)
(** * Further properties of the script *)

(** ** Dates of the dataset and the default ranges *)

Lemma date_le_iff (a b : Calendar.Date) :
  Calendar.le a b <->
  Calendar.year a < Calendar.year b
  \/ (Calendar.year a = Calendar.year b
      /\ (Calendar.month a < Calendar.month b
          \/ (Calendar.month a = Calendar.month b
              /\ Calendar.day a <= Calendar.day b))).
Proof.
  unfold Calendar.le, Calendar.compare.
  destruct (Z.compare_spec (Calendar.year a) (Calendar.year b));
    destruct (Z.compare_spec (Calendar.month a) (Calendar.month b));
    destruct (Z.compare_spec (Calendar.day a) (Calendar.day b));
    split; intros; try congruence; try lia; try discriminate.
Qed.

Lemma date_ltb_iff (a b : Calendar.Date) :
  date_ltb a b = true <->
  Calendar.year a < Calendar.year b
  \/ (Calendar.year a = Calendar.year b
      /\ (Calendar.month a < Calendar.month b
          \/ (Calendar.month a = Calendar.month b
              /\ Calendar.day a < Calendar.day b))).
Proof.
  unfold date_ltb, Calendar.compare.
  destruct (Z.compare_spec (Calendar.year a) (Calendar.year b));
    destruct (Z.compare_spec (Calendar.month a) (Calendar.month b));
    destruct (Z.compare_spec (Calendar.day a) (Calendar.day b));
    split; intros; try congruence; try lia; try discriminate.
Qed.

Lemma date_le_refl (a : Calendar.Date) : Calendar.le a a.
Proof. apply date_le_iff. lia. Qed.

Lemma date_le_trans (a b c : Calendar.Date) :
  Calendar.le a b -> Calendar.le b c -> Calendar.le a c.
Proof. rewrite !date_le_iff. lia. Qed.

Lemma date_le_total (a b : Calendar.Date) : Calendar.le a b \/ Calendar.le b a.
Proof. rewrite !date_le_iff. lia. Qed.

Lemma date_min_spec (a b : Calendar.Date) :
  (date_min a b = a \/ date_min a b = b)
  /\ Calendar.le (date_min a b) a /\ Calendar.le (date_min a b) b.
Proof.
  unfold date_min. destruct (Calendar.leb a b) eqn:E.
  - apply leb_le in E. split; [now left|]. split; [apply date_le_refl | exact E].
  - split; [now right|]. split; [|apply date_le_refl].
    destruct (date_le_total a b) as [H|H]; [|exact H].
    apply leb_le in H. congruence.
Qed.

Lemma date_max_spec (a b : Calendar.Date) :
  (date_max a b = a \/ date_max a b = b)
  /\ Calendar.le a (date_max a b) /\ Calendar.le b (date_max a b).
Proof.
  unfold date_max. destruct (Calendar.leb a b) eqn:E.
  - apply leb_le in E. split; [now right|]. split; [exact E | apply date_le_refl].
  - split; [now left|]. split; [apply date_le_refl|].
    destruct (date_le_total a b) as [H|H]; [|exact H].
    apply leb_le in H. congruence.
Qed.

Lemma fold_date_min (t : DataFrame) (acc : Calendar.Date) :
  let res := fold_left (fun a r => date_min a (date r)) t acc in
  (res = acc \/ exists r, In r t /\ date r = res)
  /\ Calendar.le res acc
  /\ (forall r, In r t -> Calendar.le res (date r)).
Proof.
  revert acc. induction t as [|h t IH]; intros acc; simpl.
  - split; [now left|]. split; [apply date_le_refl | intros r []].
  - destruct (IH (date_min acc (date h))) as [Hor [Hle Hall]].
    destruct (date_min_spec acc (date h)) as [Hm [Hma Hmh]].
    split; [|split].
    + destruct Hor as [E|[r [Hr E]]].
      * destruct Hm as [Hm|Hm]; [left; congruence|].
        right. exists h. split; [now left | congruence].
      * right. exists r. auto.
    + eapply date_le_trans; eauto.
    + intros r [<-|Hr]; [eapply date_le_trans; eauto | now apply Hall].
Qed.

Lemma fold_date_max (t : DataFrame) (acc : Calendar.Date) :
  let res := fold_left (fun a r => date_max a (date r)) t acc in
  (res = acc \/ exists r, In r t /\ date r = res)
  /\ Calendar.le acc res
  /\ (forall r, In r t -> Calendar.le (date r) res).
Proof.
  revert acc. induction t as [|h t IH]; intros acc; simpl.
  - split; [now left|]. split; [apply date_le_refl | intros r []].
  - destruct (IH (date_max acc (date h))) as [Hor [Hle Hall]].
    destruct (date_max_spec acc (date h)) as [Hm [Hma Hmh]].
    split; [|split].
    + destruct Hor as [E|[r [Hr E]]].
      * destruct Hm as [Hm|Hm]; [left; congruence|].
        right. exists h. split; [now left | congruence].
      * right. exists r. auto.
    + eapply date_le_trans; eauto.
    + intros r [<-|Hr]; [eapply date_le_trans; eauto | now apply Hall].
Qed.

Lemma min_date_spec (df : DataFrame) (m : Calendar.Date) :
  min_date df = Some m ->
  (exists r, In r df /\ date r = m) /\ (forall r, In r df -> Calendar.le m (date r)).
Proof.
  destruct df as [|h t]; simpl; [discriminate|]. intros E. inversion E as [E']. clear E.
  destruct (fold_date_min t (date h)) as [Hor [Hle Hall]]. rewrite E' in *.
  split.
  - destruct Hor as [Ea|[r [Hr Er]]]; [exists h | exists r]; auto.
  - intros r [<-|Hr]; auto.
Qed.

Lemma max_date_spec (df : DataFrame) (m : Calendar.Date) :
  max_date df = Some m ->
  (exists r, In r df /\ date r = m) /\ (forall r, In r df -> Calendar.le (date r) m).
Proof.
  destruct df as [|h t]; simpl; [discriminate|]. intros E. inversion E as [E']. clear E.
  destruct (fold_date_max t (date h)) as [Hor [Hle Hall]]. rewrite E' in *.
  split.
  - destruct Hor as [Ea|[r [Hr Er]]]; [exists h | exists r]; auto.
  - intros r [<-|Hr]; auto.
Qed.

Lemma six_months_back_earlier (d : Calendar.Date) :
  1 <= Calendar.month d <= 12 -> date_ltb (minus_date_offset 0 6 d) d = true.
Proof.
  intros Hm. apply date_ltb_iff. unfold minus_date_offset. simpl.
  destruct (12 <? Calendar.month d - 6) eqn:E1; [apply Z.ltb_lt in E1; lia|].
  destruct (Calendar.month d - 6 <? 1) eqn:E2;
    [apply Z.ltb_lt in E2 | apply Z.ltb_ge in E2]; lia.
Qed.

Lemma start_value_bounds (min_d max_d : Calendar.Date) :
  Calendar.le min_d max_d -> 1 <= Calendar.month max_d <= 12 ->
  Calendar.le min_d (start_value min_d max_d)
  /\ Calendar.le (start_value min_d max_d) max_d.
Proof.
  intros Hle Hm. unfold start_value.
  destruct (date_ltb (minus_date_offset 0 6 max_d) min_d) eqn:E.
  - split; [apply date_le_refl | exact Hle].
  - pose proof (six_months_back_earlier max_d Hm) as Hlt.
    apply date_ltb_iff in Hlt. split.
    + destruct (date_le_total min_d (minus_date_offset 0 6 max_d)) as [H|H]; [exact H|].
      apply date_le_iff. apply date_le_iff in H.
      assert (~ (date_ltb (minus_date_offset 0 6 max_d) min_d = true)) as N by congruence.
      rewrite date_ltb_iff in N. lia.
    + apply date_le_iff. lia.
Qed.



Lemma dashboard_rendered_iff (df : DataFrame) (sb : Sidebar) :
  (exists v, dashboard df sb = Rendered v) <-> df_period_1 df sb <> [].
Proof.
  unfold dashboard. destruct (df_period_1 df sb) as [|r t] eqn:E; simpl.
  - split; [intros [v H]; discriminate | congruence].
  - split; [discriminate | intros _; eexists; reflexivity].
Qed.

(** X2. On a dataset with at least one row, the sidebar as it first
    appears (default main range, every store selected, compare mode off)
    never leads to the warning: the run renders its views, because the rows
    of the last date always fall in the default range. *)
Theorem X2_default_filters_render :
  forall df : DataFrame,
    df <> [] ->
    Forall (fun r => 1 <= month_num r <= 12) df ->
    exists sb v,
      default_sidebar df = Some sb
      /\ dashboard df sb = Rendered v
      /\ compare_mode sb = false
      /\ (exists r, In r (df_period_1 df sb) /\ max_date df = Some (date r)).
Proof.
  intros df Hne Hv.
  destruct (min_date df) as [mn|] eqn:Hmin; [|destruct df; [congruence|discriminate]].
  destruct (max_date df) as [mx|] eqn:Hmax; [|destruct df; [congruence|discriminate]].
  destruct (min_date_spec _ _ Hmin) as [[r0 [Hr0 E0]] _].
  destruct (max_date_spec _ _ Hmax) as [[r [Hr Er]] Hall].
  assert (1 <= Calendar.month mx <= 12) as Hm.
  { rewrite Forall_forall in Hv. rewrite <- Er. exact (Hv r Hr). }
  assert (Calendar.le mn mx) as Hle by (rewrite <- E0; now apply Hall).
  destruct (start_value_bounds mn mx Hle Hm) as [H1 H2].
  set (sb := mkSidebar false (start_value mn mx) mx
                       (default_start_2 (start_value mn mx)) (default_end_2 mx)
                       (all_stores df)).
  assert (In r (df_period_1 df sb)) as Hin.
  { rewrite df_period_1_filter_layer. apply filter_layer_In. simpl.
    rewrite Er. split; [exact Hr|]. split; [exact H2|]. split; [apply date_le_refl|].
    apply (sorted_keys_In _ string_compare_order). now apply in_map. }
  assert (exists v, dashboard df sb = Rendered v) as [v Hd].
  { apply dashboard_rendered_iff. intros E. rewrite E in Hin. exact Hin. }
  exists sb, v. unfold default_sidebar. rewrite Hmin, Hmax.
  split; [reflexivity|]. split; [exact Hd|]. split; [reflexivity|].
  exists r. split; [exact Hin | now rewrite Er].
Qed.

Lemma X2_default_filters_witness :
  exists sb v,
    default_sidebar [mkRow (Calendar.mkDate 2024 8 31) "A" 2;
                     mkRow (Calendar.mkDate 2023 9 30) "B" 1] = Some sb
    /\ dashboard [mkRow (Calendar.mkDate 2024 8 31) "A" 2;
                  mkRow (Calendar.mkDate 2023 9 30) "B" 1] sb = Rendered v
    /\ compare_mode sb = false
    /\ (exists r, In r (df_period_1 [mkRow (Calendar.mkDate 2024 8 31) "A" 2;
                                     mkRow (Calendar.mkDate 2023 9 30) "B" 1] sb)
                  /\ max_date [mkRow (Calendar.mkDate 2024 8 31) "A" 2;
                               mkRow (Calendar.mkDate 2023 9 30) "B" 1]
                     = Some (date r)).
Proof.
  apply X2_default_filters_render; [discriminate|].
  repeat (apply Forall_cons; [unfold month_num; simpl; lia|]). apply Forall_nil.
Defined.

(** ** Store filter *)

(** X3. The store list offered in the sidebar holds every store of the
    dataset once, in increasing order; leaving all of them selected, as by
    default, makes the store filter keep every row of any part of the
    dataset. *)
Theorem X3_all_stores_selected_keeps_rows :
  forall df : DataFrame,
    StronglySorted (klt String.compare) (all_stores df)
    /\ NoDup (all_stores df)
    /\ (forall s, In s (all_stores df) <-> exists r, In r df /\ store r = s)
    /\ (forall start_date end_date,
           filter_layer df start_date end_date (all_stores df)
           = filter_dates df start_date end_date).
Proof.
  intros df. unfold all_stores.
  split; [apply (sorted_keys_sorted _ string_compare_order)|].
  split; [apply (sorted_keys_NoDup _ string_compare_order)|].
  split.
  - intros s. rewrite (sorted_keys_In _ string_compare_order), in_map_iff.
    split; intros [r H]; exists r; tauto.
  - intros s e. unfold filter_layer, filter_stores. apply filter_all.
    intros r Hr. apply isin_In, (sorted_keys_In _ string_compare_order).
    apply in_map. unfold filter_dates in Hr. apply filter_In in Hr. tauto.
Qed.

Lemma filter_comm {A : Type} (f g : A -> bool) (l : list A) :
  filter f (filter g l) = filter g (filter f l).
Proof.
  induction l as [|a l IH]; simpl; [reflexivity|].
  destruct (g a) eqn:Eg; destruct (f a) eqn:Ef; simpl; rewrite ?Eg, ?Ef; now rewrite IH.
Qed.

Lemma filter_idem {A : Type} (f : A -> bool) (l : list A) :
  filter f (filter f l) = filter f l.
Proof.
  apply filter_all. intros a Ha. apply filter_In in Ha. tauto.
Qed.

(** X4. The date mask and the store mask can be applied in either order,
    and applying the Filter Layer to its own output changes nothing. *)
Theorem X4_filters_commute_and_are_idempotent :
  forall (df : DataFrame) (start_date end_date : Calendar.Date)
         (stores : list string),
    filter_stores (filter_dates df start_date end_date) stores
    = filter_dates (filter_stores df stores) start_date end_date
    /\ filter_layer (filter_layer df start_date end_date stores)
                    start_date end_date stores
       = filter_layer df start_date end_date stores.
Proof.
  intros df s e stores. unfold filter_layer, filter_stores, filter_dates. split.
  - apply filter_comm.
  - rewrite (filter_comm (fun r => Calendar.between s e (date r))
                         (fun r => isin stores (store r))
                         (filter (fun r => Calendar.between s e (date r)) df)).
    now rewrite !filter_idem.
Qed.

(** ** Default comparison range *)






(** ** What a run shows *)

Lemma df_period_2_nonempty_iff (df : DataFrame) (sb : Sidebar) :
  comparing sb (df_period_2 df sb) = true <->
  compare_mode sb = true
  /\ exists r, In r df /\ Calendar.le (start_date_2 sb) (date r)
               /\ Calendar.le (date r) (end_date_2 sb)
               /\ In (store r) (selected_stores sb).
Proof.
  unfold comparing. rewrite df_period_2_filter_layer.
  destruct (compare_mode sb); simpl; [|split; [discriminate | intros [H _]; discriminate]].
  destruct (filter_layer df (start_date_2 sb) (end_date_2 sb) (selected_stores sb))
    as [|r t] eqn:E; simpl.
  - split; [discriminate|]. intros [_ [r [Hr Hok]]].
    assert (In r (filter_layer df (start_date_2 sb) (end_date_2 sb) (selected_stores sb)))
      as Hin by (apply filter_layer_In; tauto).
    rewrite E in Hin. destruct Hin.
  - split; [|reflexivity]. intros _. split; [reflexivity|].
    assert (In r (filter_layer df (start_date_2 sb) (end_date_2 sb) (selected_stores sb)))
      as Hin by (rewrite E; now left).
    apply filter_layer_In in Hin. exists r. tauto.
Qed.


(** X7. A run that renders shows the comparison cards, the two-series
    trend and two charts of each kind exactly when compare mode is on and
    some row of the dataset lies in the comparison range with a selected
    store; otherwise it shows the main-period cards, the single trend and
    one chart of each kind. *)
Theorem X7_comparison_views_iff_comparison_rows :
  forall (df : DataFrame) (sb : Sidebar) (v : View),
    dashboard df sb = Rendered v ->
    let has_comparison :=
      compare_mode sb = true
      /\ exists r, In r df /\ Calendar.le (start_date_2 sb) (date r)
                   /\ Calendar.le (date r) (end_date_2 sb)
                   /\ In (store r) (selected_stores sb) in
    (has_comparison ->
     sales_var_of (v_kpis v)
     = Some (delta (total_sales (df_period_1 df sb)) (total_sales (df_period_2 df sb)))
     /\ v_trend v
        = MonthlyComparison (plot_df_comparison (df_period_1 df sb) (df_period_2 df sb))
     /\ List.length (v_heatmaps v) = 2%nat /\ List.length (v_stats v) = 2%nat)
    /\ (~ has_comparison ->
        v_kpis v = KpiMain (total_sales (df_period_1 df sb))
                           (avg_daily_sales (df_period_1 df sb))
        /\ v_trend v = MonthlyEvolution (plot_df_evolution (df_period_1 df sb))
        /\ List.length (v_heatmaps v) = 1%nat /\ List.length (v_stats v) = 1%nat).
Proof.
  intros df sb v Hd. cbv zeta.
  unfold dashboard in Hd. destruct (empty (df_period_1 df sb)); [discriminate|].
  inversion Hd; subst v; clear Hd. simpl.
  unfold kpis, plot_df, heatmaps, stats_charts.
  split; intros H.
  - apply df_period_2_nonempty_iff in H. rewrite H. simpl. auto.
  - assert (comparing sb (df_period_2 df sb) = false) as E.
    { apply not_true_is_false. intros E. apply H. now apply df_period_2_nonempty_iff. }
    rewrite E. simpl. auto.
Qed.

Lemma X7_comparison_views_witness :
  let df := [mkRow (Calendar.mkDate 2024 3 5) "A" 30;
             mkRow (Calendar.mkDate 2023 3 7) "A" 20] in
  let sb := mkSidebar true (Calendar.mkDate 2024 1 1) (Calendar.mkDate 2024 12 31)
                      (Calendar.mkDate 2023 1 1) (Calendar.mkDate 2023 12 31) ["A"] in
  exists v,
    dashboard df sb = Rendered v
    /\ sales_var_of (v_kpis v)
       = Some (delta (total_sales (df_period_1 df sb)) (total_sales (df_period_2 df sb)))
    /\ List.length (v_heatmaps v) = 2%nat.
Proof.
  cbv zeta. eexists. split; [reflexivity|].
  refine (let H := proj1 (X7_comparison_views_iff_comparison_rows
                            [mkRow (Calendar.mkDate 2024 3 5) "A" 30;
                             mkRow (Calendar.mkDate 2023 3 7) "A" 20]
                            (mkSidebar true (Calendar.mkDate 2024 1 1)
                                       (Calendar.mkDate 2024 12 31)
                                       (Calendar.mkDate 2023 1 1)
                                       (Calendar.mkDate 2023 12 31) ["A"])
                            _ eq_refl) _ in
          conj (proj1 H) (proj1 (proj2 (proj2 H)))).
  split; [reflexivity|].
  exists (mkRow (Calendar.mkDate 2023 3 7) "A" 20).
  split; [right; now left|].
  split; [discriminate|]. split; [discriminate|]. now left.
Defined.

(** X8. In a run that renders, every chart builder is called on a table
    with rows: each heatmap and each mean/median chart comes back as a
    figure, and no "No data available" note is put on the page. *)
Theorem X8_rendered_charts_are_figures :
  forall (df : DataFrame) (sb : Sidebar) (v : View),
    dashboard df sb = Rendered v ->
    Forall (fun b => fst b <> None /\ snd b = []) (v_heatmaps v)
    /\ Forall (fun b => fst b <> None /\ snd b = []) (v_stats v).
Proof.
  intros df sb v Hd. unfold dashboard in Hd.
  destruct (df_period_1 df sb) as [|r1 t1] eqn:E1; simpl in Hd; [discriminate|].
  inversion Hd; subst v; clear Hd. simpl.
  unfold heatmaps, stats_charts, comparing.
  destruct (compare_mode sb); simpl.
  - destruct (df_period_2 df sb) as [|r2 t2]; simpl;
      split; repeat constructor; simpl; discriminate.
  - split; repeat constructor; simpl; discriminate.
Qed.

Lemma X8_rendered_charts_witness :
  exists v,
    dashboard [mkRow (Calendar.mkDate 2024 3 5) "A" 30]
              (mkSidebar false (Calendar.mkDate 2024 1 1) (Calendar.mkDate 2024 12 31)
                         (Calendar.mkDate 2023 1 1) (Calendar.mkDate 2023 12 31) ["A"])
    = Rendered v
    /\ Forall (fun b => fst b <> None /\ snd b = []) (v_heatmaps v)
    /\ Forall (fun b => fst b <> None /\ snd b = []) (v_stats v).
Proof.
  eexists. split; [reflexivity|].
  apply (X8_rendered_charts_are_figures
           [mkRow (Calendar.mkDate 2024 3 5) "A" 30]
           (mkSidebar false (Calendar.mkDate 2024 1 1) (Calendar.mkDate 2024 12 31)
                      (Calendar.mkDate 2023 1 1) (Calendar.mkDate 2023 12 31) ["A"])).
  reflexivity.
Defined.

(** ** Mean and median chart *)

Lemma Qplus_pos_nonneg (a b : Q) : (0 < a -> 0 <= b -> 0 < a + b)%Q.
Proof.
  intros Ha Hb. apply (Qlt_le_trans _ (a + 0)).
  - now rewrite Qplus_0_r.
  - now apply Qplus_le_r.
Qed.

Lemma Qsum_nonneg (l : list Q) : Forall (fun x => (0 < x)%Q) l -> (0 <= Qsum l)%Q.
Proof.
  induction 1 as [|x l Hx Hl IH]; simpl; [apply Qle_refl|].
  apply Qlt_le_weak. now apply Qplus_pos_nonneg.
Qed.

Lemma Qsum_pos (l : list Q) :
  l <> [] -> Forall (fun x => (0 < x)%Q) l -> (0 < Qsum l)%Q.
Proof.
  intros Hne Hf. destruct Hf as [|x l Hx Hl]; [congruence|]. simpl.
  apply Qplus_pos_nonneg; [exact Hx | now apply Qsum_nonneg].
Qed.

Lemma mean_pos (l : list Q) :
  l <> [] -> Forall (fun x => (0 < x)%Q) l -> exists q, mean l = Some q /\ (0 < q)%Q.
Proof.
  intros Hne Hf. destruct l as [|x l]; [congruence|].
  eexists. split; [reflexivity|].
  apply Qlt_shift_div_l.
  - change 0%Q with (inject_Z 0). rewrite <- Zlt_Qlt. simpl. lia.
  - rewrite Qmult_0_l. apply Qsum_pos; [discriminate | exact Hf].
Qed.

Lemma median_pos (l : list Q) :
  l <> [] -> Forall (fun x => (0 < x)%Q) l -> exists q, median l = Some q /\ (0 < q)%Q.
Proof.
  intros Hne Hf. destruct l as [|x l]; [congruence|]. unfold median.
  set (s := sort_values Qcompare (fun q => q) (x :: l)).
  assert (Permutation s (x :: l)) as Hp by apply sort_values_perm.
  assert (List.length s = S (List.length l)) as Hlen
      by (rewrite (Permutation_length Hp); reflexivity).
  assert (forall i, (i < List.length s)%nat -> (0 < nth i s 0)%Q) as Hnth.
  { intros i Hi. rewrite Forall_forall in Hf. apply Hf.
    apply (Permutation_in _ Hp). now apply nth_In. }
  assert (Nat.div (List.length s) 2 < List.length s)%nat as Hh
      by (apply Nat.div_lt; lia).
  destruct (Nat.even (List.length s)); eexists; (split; [reflexivity|]).
  - apply Qlt_shift_div_l; [reflexivity|]. rewrite Qmult_0_l.
    apply Qplus_pos_nonneg.
    + apply Hnth. lia.
    + apply Qlt_le_weak. now apply Hnth.
  - now apply Hnth.
Qed.

(** X9. A table with rows but without a single positive sale gets neither
    the placeholder note nor any bar: the builder returns a figure whose
    data are empty. *)
Theorem X9_stats_chart_blank_without_positive_sales :
  forall (df : DataFrame) (title : string),
    df <> [] ->
    (forall r, In r df -> (sales r <= 0)%Q) ->
    create_stats_barchart df title = (Some (mkBar [] title), []).
Proof.
  intros df title Hne Hall. unfold create_stats_barchart.
  destruct df as [|r t] eqn:E; [congruence|]. rewrite <- E in *. simpl empty.
  assert (empty df = false) as -> by (now rewrite E).
  assert (df_operating_days df = []) as Hop.
  { unfold df_operating_days. apply filter_nil_iff. intros x Hx.
    apply Qltb_ge. now apply Hall. }
  unfold stats. rewrite Hop. reflexivity.
Qed.

Lemma X9_stats_chart_blank_witness :
  create_stats_barchart [mkRow (Calendar.mkDate 2024 1 8) "StoreA" 0] "Main Period"
  = (Some (mkBar [] "Main Period"), []).
Proof.
  apply X9_stats_chart_blank_without_positive_sales; [discriminate|].
  intros r [<-|[]]. discriminate.
Defined.

(** X10. Every bar of the mean/median chart is a positive number: each
    store with a positive sale gets one mean and one median, both greater
    than zero, and no other store gets a bar. *)
Theorem X10_stats_bars_are_positive :
  forall (df : DataFrame) (title : string) (fig : BarFigure) (notes : list string),
    create_stats_barchart df title = (Some fig, notes) ->
    Forall (fun row => exists q, st_value row = Some q /\ (0 < q)%Q) (bar_data fig)
    /\ map st_store (bar_data fig) = map fst (stats df) ++ map fst (stats df)
    /\ (forall s, In s (map st_store (bar_data fig)) <->
                  exists r, In r df /\ store r = s /\ (0 < sales r)%Q).
Proof.
  intros df title fig notes H. unfold create_stats_barchart in H.
  destruct (empty df); [discriminate|]. inversion H; subst; clear H. simpl bar_data.
  assert (forall s m md, In (s, (m, md)) (stats df) ->
            (exists q, m = Some q /\ (0 < q)%Q) /\ (exists q, md = Some q /\ (0 < q)%Q))
    as Hpos.
  { intros s m md Hin. unfold stats in Hin.
    apply (groupby_In _ string_compare_order) in Hin.
    destruct Hin as [[r [Hr Hs]] Hv]. inversion Hv; subst; clear Hv.
    set (xs := map sales (group String.compare store (store r) (df_operating_days df))).
    assert (xs <> []) as Hne.
    { intros E. apply map_eq_nil in E. revert E.
      apply (group_nonempty _ string_compare_order). now apply in_map. }
    assert (Forall (fun x => (0 < x)%Q) xs) as Hf.
    { apply Forall_forall. intros x Hx. apply in_map_iff in Hx.
      destruct Hx as [r' [<- Hr']]. apply (group_In _ string_compare_order) in Hr'.
      destruct Hr' as [Hr' _]. apply df_operating_days_In in Hr'. tauto. }
    split; [now apply mean_pos | now apply median_pos]. }
  assert (map st_store (melt (stats df)) = map fst (stats df) ++ map fst (stats df))
    as Hst.
  { unfold melt. rewrite map_app, !map_map. reflexivity. }
  split; [|split; [exact Hst|]].
  - unfold melt. apply Forall_app. split; apply Forall_forall; intros row Hrow;
      apply in_map_iff in Hrow; destruct Hrow as [[s [m md]] [<- Hin]]; simpl;
      destruct (Hpos s m md Hin) as [Hm Hmd]; assumption.
  - intros s. rewrite Hst, in_app_iff.
    assert (In s (map fst (stats df)) <->
            exists r, In r df /\ store r = s /\ (0 < sales r)%Q) as Hiff.
    { unfold stats. rewrite groupby_keys.
      rewrite (sorted_keys_In _ string_compare_order), in_map_iff. split.
      - intros [r [E Hr]]. apply df_operating_days_In in Hr. exists r. tauto.
      - intros [r [Hr [E Hp]]]. exists r. split; [exact E|].
        apply df_operating_days_In. tauto. }
    rewrite <- Hiff. tauto.
Qed.

Lemma X10_stats_bars_witness :
  Forall (fun row => exists q, st_value row = Some q /\ (0 < q)%Q)
         (melt (stats [mkRow (Calendar.mkDate 2024 1 1) "A" 10;
                       mkRow (Calendar.mkDate 2024 1 2) "A" (-4)])).
Proof.
  exact (proj1 (X10_stats_bars_are_positive
                  [mkRow (Calendar.mkDate 2024 1 1) "A" 10;
                   mkRow (Calendar.mkDate 2024 1 2) "A" (-4)]
                  "Main Period" _ _ eq_refl)).
Defined.

(** ** Heatmap table *)

Lemma day_name_in_ordered_days (d : Calendar.Date) :
  In (Calendar.day_name d) ordered_days.
Proof.
  unfold Calendar.day_name, Calendar.weekday.
  pose proof (Z.mod_pos_bound (Calendar.toordinal d + 6) 7 ltac:(lia)) as B.
  set (w := (Calendar.toordinal d + 6) mod 7) in *.
  assert (w = 0 \/ w = 1 \/ w = 2 \/ w = 3 \/ w = 4 \/ w = 5 \/ w = 6) as Hw by lia.
  unfold ordered_days.
  destruct Hw as [->|[->|[->|[->|[->|[->| ->]]]]]]; simpl; tauto.
Qed.

Lemma nth_of_map_at {A B : Type} (f : A -> B) (l : list A) (i : nat) (a : A) (d : B) :
  nth_error l i = Some a -> nth i (map f l) d = f a.
Proof.
  intros H. apply nth_error_nth. now apply map_nth_error.
Qed.

(** X11. The heatmap table is rectangular, one row per store and seven
    cells per row, and no row of the input is left out of it: the day name
    of any date is one of the seven columns, and the cell of a row's store
    and day holds a number. *)
Theorem X11_heatmap_covers_every_row :
  forall df : DataFrame,
    List.length (cells (heatmap_data df)) = List.length (index (heatmap_data df))
    /\ Forall (fun row => List.length row = 7%nat) (cells (heatmap_data df))
    /\ (forall r, In r df ->
          exists i j q,
            nth_error (index (heatmap_data df)) i = Some (store r)
            /\ nth_error (columns (heatmap_data df)) j = Some (day_of_week r)
            /\ nth j (nth i (cells (heatmap_data df)) []) None = Some q).
Proof.
  intros df. rewrite heatmap_cells. split; [apply length_map|]. split.
  - apply Forall_forall. intros row Hrow. apply in_map_iff in Hrow.
    destruct Hrow as [s [<- _]]. now rewrite length_map.
  - intros r Hr.
    assert (In (store r) (index (heatmap_data df))) as Hs.
    { change (In (store r) (index (pivot_table df))). apply pivot_index_In. eauto. }
    destruct (In_nth_error _ _ Hs) as [i Hi].
    destruct (In_nth_error _ _ (day_name_in_ordered_days (date r))) as [j Hj].
    destruct (mean (map sales (group (pair_compare String.compare String.compare)
                                     store_day (store r, day_of_week r) df)))
      as [q|] eqn:Hq.
    + exists i, j, q. split; [exact Hi|]. split; [exact Hj|].
      rewrite (nth_of_map_at _ _ _ _ _ Hi).
      rewrite (nth_of_map_at _ _ _ _ _ Hj). exact Hq.
    + exfalso. apply mean_none_iff, map_eq_nil in Hq.
      apply (group_nil_iff _ store_day_order) in Hq. apply Hq. exists r. auto.
Qed.

(** ** Totals *)






Lemma increasing_in_range_length (l : list Z) (a b : Z) :
  StronglySorted Z.lt l -> Forall (fun x => a <= x <= b) l ->
  Z.of_nat (List.length l) <= Z.max 0 (b - a + 1).
Proof.
  intros Hs. revert a. induction Hs as [|h t Hs IH Hh]; intros a Hf; simpl List.length.
  - lia.
  - inversion Hf as [|? ? Hha Hft]; subst.
    assert (Forall (fun x => h + 1 <= x <= b) t) as Ht.
    { rewrite Forall_forall in *. intros x Hx.
      specialize (Hh x Hx). specialize (Hft x Hx). lia. }
    specialize (IH (h + 1) Ht). lia.
Qed.

(** X14. With two periods, each series of the monthly trend has at most
    twelve points, one per calendar month and no month twice, however many
    years the period spans; the combined table has at most twenty-four. *)
Theorem X14_comparison_trend_at_most_twelve_points :
  forall (d1 d2 : DataFrame) (p : string),
    Forall (fun r => 1 <= month_num r <= 12) d1 ->
    Forall (fun r => 1 <= month_num r <= 12) d2 ->
    (List.length (monthly_sales d1 p) <= 12)%nat
    /\ NoDup (map t_month_num (monthly_sales d1 p))
    /\ (List.length (plot_df_comparison d1 d2) <= 24)%nat.
Proof.
  intros d1 d2 p H1 H2.
  assert (forall d q, Forall (fun r => 1 <= month_num r <= 12) d ->
                      (List.length (monthly_sales d q) <= 12)%nat) as Hlen.
  { intros d q Hd.
    pose proof (increasing_in_range_length
                  (map t_month_num (monthly_sales d q)) 1 12
                  (monthly_sales_increasing d q)) as Hb.
    rewrite length_map in Hb.
    assert (Forall (fun x => 1 <= x <= 12) (map t_month_num (monthly_sales d q))) as Hf.
    { apply Forall_forall. intros m Hm. apply in_map_iff in Hm.
      destruct Hm as [row [<- Hrow]]. apply monthly_sales_In in Hrow.
      destruct Hrow as [m [[r [Hr Hmr]] ->]]. simpl.
      rewrite Forall_forall in Hd. rewrite <- Hmr. now apply Hd. }
    specialize (Hb Hf). lia. }
  split; [now apply Hlen|]. split.
  - apply (sorted_NoDup Z.compare Z_compare_order).
    exact (monthly_sales_increasing d1 p).
  - unfold plot_df_comparison.
    rewrite (Permutation_length (sort_values_perm Z.compare t_month_num _)).
    rewrite length_app.
    pose proof (Hlen d1 "Main" H1). pose proof (Hlen d2 "Comparison" H2). lia.
Qed.

Lemma X14_comparison_trend_witness :
  (List.length (monthly_sales [mkRow (Calendar.mkDate 2024 1 15) "A" 10;
                               mkRow (Calendar.mkDate 2023 1 20) "A" 5] "Main")
   <= 12)%nat
  /\ NoDup (map t_month_num
                (monthly_sales [mkRow (Calendar.mkDate 2024 1 15) "A" 10;
                                mkRow (Calendar.mkDate 2023 1 20) "A" 5] "Main"))
  /\ (List.length (plot_df_comparison [mkRow (Calendar.mkDate 2024 1 15) "A" 10;
                                       mkRow (Calendar.mkDate 2023 1 20) "A" 5]
                                      [mkRow (Calendar.mkDate 2022 5 20) "A" 5])
      <= 24)%nat.
Proof.
  apply X14_comparison_trend_at_most_twelve_points;
    repeat (apply Forall_cons; [unfold month_num; simpl; lia|]); apply Forall_nil.
Defined.

(** ** Order of the data explorer *)

(** Date texts DD/MM/YYYY compare by day, then month, then year. *)
Lemma strftime_dmy_compare (a b : Calendar.Date) :
  0 <= Calendar.day a < 100 -> 0 <= Calendar.month a < 100 ->
  0 <= Calendar.year a < 10000 ->
  0 <= Calendar.day b < 100 -> 0 <= Calendar.month b < 100 ->
  0 <= Calendar.year b < 10000 ->
  String.compare (Calendar.strftime_dmy a) (Calendar.strftime_dmy b)
  = pair_compare Z.compare (pair_compare Z.compare Z.compare)
                 (Calendar.day a, (Calendar.month a, Calendar.year a))
                 (Calendar.day b, (Calendar.month b, Calendar.year b)).
Proof.
  intros Hda Hma Hya Hdb Hmb Hyb. unfold Calendar.strftime_dmy, pair_compare.
  simpl fst. simpl snd.
  rewrite string_compare_append by now rewrite !pad_length.
  rewrite (pad_compare 2) by (simpl; lia).
  destruct (Calendar.day a ?= Calendar.day b); try reflexivity.
  rewrite (string_compare_append "/" "/") by reflexivity.
  simpl (String.compare "/" "/").
  rewrite string_compare_append by now rewrite !pad_length.
  rewrite (pad_compare 2) by (simpl; lia).
  destruct (Calendar.month a ?= Calendar.month b); try reflexivity.
  rewrite (string_compare_append "/" "/") by reflexivity.
  simpl (String.compare "/" "/").
  apply (pad_compare 4); simpl; lia.
Qed.

Lemma df_display_rows (d1 : DataFrame) :
  df_display d1
  = map display_row
        (sort_values (descending String.compare)
                     (fun r => Calendar.strftime_dmy (date r)) d1).
Proof.
  unfold df_display. symmetry.
  apply (sort_values_map (descending String.compare) display_row). reflexivity.
Qed.

Lemma StronglySorted_weaken {A : Type} (R R' : A -> A -> Prop) (P : A -> Prop)
      (l : list A) :
  (forall a b, P a -> P b -> R a b -> R' a b) ->
  Forall P l -> StronglySorted R l -> StronglySorted R' l.
Proof.
  intros H Hf Hs. induction Hs as [|h t Hs IH Hh]; [constructor|].
  inversion Hf as [|? ? Hph Hpt]; subst.
  constructor; [now apply IH|].
  rewrite Forall_forall in *. intros x Hx. apply H; auto.
Qed.

Lemma explorer_rows_sorted_by_text (d1 : DataFrame) :
  Forall (fun r => Calendar.valid (date r)) d1 ->
  let shown := sort_values (descending String.compare)
                           (fun r => Calendar.strftime_dmy (date r)) d1 in
  Forall (fun r => Calendar.valid (date r)) shown
  /\ StronglySorted
       (fun a b => kle (pair_compare Z.compare (pair_compare Z.compare Z.compare))
                       (day_month_year b) (day_month_year a))
       shown.
Proof.
  intros Hv shown.
  assert (Forall (fun r => Calendar.valid (date r)) shown) as Hvs.
  { rewrite Forall_forall in *. intros r Hr. apply Hv.
    apply (Permutation_in _ (sort_values_perm (descending String.compare)
                               (fun r => Calendar.strftime_dmy (date r)) d1)).
    exact Hr. }
  split; [exact Hvs|].
  apply (StronglySorted_weaken
           (fun a b => kle (descending String.compare)
                           (Calendar.strftime_dmy (date a))
                           (Calendar.strftime_dmy (date b)))
           _ (fun r => Calendar.valid (date r))); [|exact Hvs|].
  - intros a b Ha Hb. unfold kle, descending, day_month_year, month_num, year.
    unfold Calendar.valid in Ha, Hb.
    now rewrite strftime_dmy_compare by lia.
  - apply (sort_values_sorted _ (descending_order _ string_compare_order)).
Qed.

(** X15. The explorer orders its rows by day of month, then month, then
    year, each from the largest down: the date texts DD/MM/YYYY compare as
    those three numbers do. *)
Theorem X15_explorer_order_is_day_month_year :
  forall d1 : DataFrame,
    Forall (fun r => Calendar.valid (date r)) d1 ->
    (forall r1 r2, In r1 d1 -> In r2 d1 ->
                   String.compare (d_date (display_row r1)) (d_date (display_row r2))
                   = pair_compare Z.compare (pair_compare Z.compare Z.compare)
                                  (day_month_year r1) (day_month_year r2))
    /\ exists shown,
        Permutation shown d1
        /\ df_display d1 = map display_row shown
        /\ StronglySorted
             (fun a b => kle (pair_compare Z.compare (pair_compare Z.compare Z.compare))
                             (day_month_year b) (day_month_year a))
             shown.
Proof.
  intros d1 Hv. split.
  - intros r1 r2 H1 H2. rewrite Forall_forall in Hv.
    pose proof (Hv r1 H1) as V1. pose proof (Hv r2 H2) as V2.
    unfold Calendar.valid in V1, V2. simpl d_date.
    unfold day_month_year, month_num, year. apply strftime_dmy_compare; lia.
  - exists (sort_values (descending String.compare)
                        (fun r => Calendar.strftime_dmy (date r)) d1).
    split; [apply sort_values_perm|]. split; [apply df_display_rows|].
    now apply explorer_rows_sorted_by_text.
Qed.

Lemma X15_explorer_order_witness :
  exists shown,
    Permutation shown [mkRow (Calendar.mkDate 2024 1 31) "A" 10;
                       mkRow (Calendar.mkDate 2024 2 1) "A" 20]
    /\ df_display [mkRow (Calendar.mkDate 2024 1 31) "A" 10;
                   mkRow (Calendar.mkDate 2024 2 1) "A" 20]
       = map display_row shown
    /\ StronglySorted
         (fun a b => kle (pair_compare Z.compare (pair_compare Z.compare Z.compare))
                         (day_month_year b) (day_month_year a))
         shown.
Proof.
  apply (X15_explorer_order_is_day_month_year
           [mkRow (Calendar.mkDate 2024 1 31) "A" 10;
            mkRow (Calendar.mkDate 2024 2 1) "A" 20]).
  repeat (apply Forall_cons; [unfold Calendar.valid; simpl; lia|]). apply Forall_nil.
Defined.

(** X16. When all rows of the main period fall in one month of one year,
    the explorer does show them from the latest date to the earliest. *)
Theorem X16_explorer_descending_within_one_month :
  forall d1 : DataFrame,
    Forall (fun r => Calendar.valid (date r)) d1 ->
    (forall r1 r2, In r1 d1 -> In r2 d1 ->
                   year r1 = year r2 /\ month_num r1 = month_num r2) ->
    exists shown,
      Permutation shown d1
      /\ df_display d1 = map display_row shown
      /\ StronglySorted (fun a b => Calendar.le (date b) (date a)) shown.
Proof.
  intros d1 Hv Hsame.
  exists (sort_values (descending String.compare)
                      (fun r => Calendar.strftime_dmy (date r)) d1).
  assert (Permutation (sort_values (descending String.compare)
                         (fun r => Calendar.strftime_dmy (date r)) d1) d1) as Hp
      by apply sort_values_perm.
  split; [exact Hp|]. split; [apply df_display_rows|].
  destruct (explorer_rows_sorted_by_text d1 Hv) as [_ Hs].
  apply (StronglySorted_weaken _ _ (fun r => In r d1) _ ) with (3 := Hs).
  - intros a b Ha Hb. destruct (Hsame a b Ha Hb) as [Ey Em].
    unfold kle, pair_compare, day_month_year, year, month_num in *. simpl.
    intros H. apply date_le_iff.
    destruct (Z.compare_spec (Calendar.day (date b)) (Calendar.day (date a))); try lia.
    congruence.
  - apply Forall_forall. intros r Hr. now apply (Permutation_in _ Hp).
Qed.

Lemma X16_explorer_one_month_witness :
  exists shown,
    Permutation shown [mkRow (Calendar.mkDate 2024 1 9) "A" 10;
                       mkRow (Calendar.mkDate 2024 1 31) "A" 20]
    /\ df_display [mkRow (Calendar.mkDate 2024 1 9) "A" 10;
                   mkRow (Calendar.mkDate 2024 1 31) "A" 20]
       = map display_row shown
    /\ StronglySorted (fun a b => Calendar.le (date b) (date a)) shown.
Proof.
  apply X16_explorer_descending_within_one_month.
  - repeat (apply Forall_cons; [unfold Calendar.valid; simpl; lia|]). apply Forall_nil.
  - intros r1 r2 [<-|[<-|[]]] [<-|[<-|[]]]; split; reflexivity.
Defined.

(** ** KPI cards *)

Lemma variation_sign (a b : Q) :
  (0 < b)%Q -> ((0 <= (a - b) / b * 100)%Q <-> (b <= a)%Q).
Proof.
  intros Hb. rewrite (Qle_minus_iff b a).
  assert (0 < / b)%Q as Hi by now apply Qinv_lt_0_compat.
  split; intros H.
  - assert (0 <= (a - b) / b)%Q as H1.
    { apply (Qmult_le_r _ _ 100); [reflexivity|]. now rewrite Qmult_0_l. }
    apply (Qmult_le_r _ _ (/ b)); [exact Hi|]. now rewrite Qmult_0_l.
  - apply Qmult_le_0_compat; [|discriminate].
    apply Qmult_le_0_compat; [exact H | now apply Qlt_le_weak].
Qed.

(** X17. The colour of the variation on a comparison card: against a
    comparison value greater than zero it is green exactly when the main
    value is at least the comparison value, red otherwise; against a
    comparison value of zero or less it is always green, whatever the main
    value. *)
Theorem X17_variation_colour :
  forall value1 value2 : Q,
    ((0 < value2)%Q ->
     (delta_color (delta value1 value2) = "green" <-> (value2 <= value1)%Q)
     /\ (delta_color (delta value1 value2) = "red" <-> (value1 < value2)%Q))
    /\ ((value2 <= 0)%Q -> delta_color (delta value1 value2) = "green").
Proof.
  intros a b. split.
  - intros Hb. rewrite (delta_positive _ _ Hb). unfold delta_color, float_ge0.
    pose proof (variation_sign a b Hb) as Hs.
    destruct (Qle_bool 0 ((a - b) / b * 100)) eqn:E.
    + apply Qle_bool_iff in E. apply Hs in E. split; split; intros H.
      * exact E.
      * reflexivity.
      * discriminate.
      * exfalso. exact (Qlt_not_le _ _ H E).
    + assert (~ (b <= a)%Q) as N.
      { intros H. apply Hs, Qle_bool_iff in H. congruence. }
      split; split; intros H.
      * discriminate.
      * contradiction.
      * now apply Qnot_le_lt.
      * reflexivity.
  - intros Hb. now rewrite (delta_nonpositive _ _ Hb).
Qed.

Lemma X17_variation_colour_witness :
  (delta_color (delta 100 150) = "red" <-> (100 < 150)%Q)
  /\ delta_color (delta 0 0) = "green".
Proof.
  split.
  - apply (proj1 (X17_variation_colour 100 150)). reflexivity.
  - apply (proj2 (X17_variation_colour 0 0)). discriminate.
Defined.

(** ** Amounts as text *)



(** ** Order of the input rows *)




